(** * Couchbase Lite JS documentation snippets

    The repository is a corpus of tagged code snippets that call the
    Couchbase Lite JS SDK.  This development embeds the functions the
    snippets define (conflict resolver, replication filters, replicator
    status handler, [updateTaskList], the [TaskManager] class) and the
    snippets themselves as programs over a small model of the SDK, and
    states the properties of the specification about them.  A second part
    embeds the other handlers, resolvers, helpers and classes of the
    snippets and proves what the code itself shows of them. *)

From Stdlib Require Import ZArith String List Bool Lia.
From stdpp Require Import base gmap strings pretty list.

(** ** JavaScript values *)

Module JS.

(** The primitive values a JSON document property or an SDK field can
    hold.  Numbers are the integers (timestamps, error codes, counts). *)
Inductive JSValue :=
  | JSUndefined
  | JSNull
  | JSBoolean (b : bool)
  | JSNumber (n : Z)
  | JSString (s : string).

#[global] Instance JSValue_eq_dec : EqDecision JSValue.
Proof. solve_decision. Defined.

(** [ToBoolean]: what [if (v)], [!v] and [v || d] test. *)
Definition truthy (v : JSValue) : bool :=
  match v with
  | JSUndefined | JSNull => false
  | JSBoolean b => b
  | JSNumber n => negb (n =? 0)%Z
  | JSString s => negb (String.eqb s "")
  end.

(** [a === b] on primitives. *)
Definition strict_eq (a b : JSValue) : bool := bool_decide (a = b).

(** [x || d] for a numeric property [x] that may be missing: a missing
    property reads as [undefined], and [undefined] and [0] are falsy. *)
Definition num_or (x : option Z) (d : Z) : Z :=
  match x with
  | Some n => if (n =? 0)%Z then d else n
  | None => d
  end.

(** One call of [console.log] or [console.error]: the literal first
    argument and the value passed after it, if any. *)
Inductive Level := LevelLog | LevelError.

Record ConsoleCall := {
  level : Level;
  text : string;
  arg : option JSValue
}.

#[global] Instance Level_eq_dec : EqDecision Level.
Proof. solve_decision. Defined.

#[global] Instance ConsoleCall_eq_dec : EqDecision ConsoleCall.
Proof. solve_decision. Defined.

Definition console_log (t : string) : ConsoleCall :=
  {| level := LevelLog; text := t; arg := None |}.
Definition console_error (t : string) : ConsoleCall :=
  {| level := LevelError; text := t; arg := None |}.
Definition console_error_with (t : string) (v : JSValue) : ConsoleCall :=
  {| level := LevelError; text := t; arg := Some v |}.

End JS.

(** ** Documents and query rows *)

Module Data.
Import JS.

(** A task document: the properties the snippets read. *)
Record Document := {
  _id : string;
  title : string;
  completed : JSValue;
  assignedTo : JSValue;
  updatedAt : option Z
}.

(** The flags the replicator passes to a filter. *)
Record DocumentFlags := { deleted : JSValue }.

(** A blob as a query returns it: its [length]. *)
Record Blob := { blob_length : Z }.

(** A row of a query result.  [SELECT * FROM tasks] puts the document
    under [tasks]; [SELECT title, attachment ...] gives the two columns. *)
Record Row := {
  tasks : option Document;
  column_title : option string;
  attachment : option Blob
}.

#[global] Instance Document_eq_dec : EqDecision Document.
Proof. solve_decision. Defined.

#[global] Instance Blob_eq_dec : EqDecision Blob.
Proof. solve_decision. Defined.

#[global] Instance Row_eq_dec : EqDecision Row.
Proof. solve_decision. Defined.

End Data.

(** ** replication_snippets.js: functions handed to the replicator *)

Module Replication.
Import JS Data.

(** tag::conflict-resolver, [pull.conflictResolver].  [None] is an absent
    ([null] or [undefined]) document; the value is what the promise of the
    async function resolves to. *)
Definition conflictResolver (documentID : string)
    (local remote : option Document) : option Document :=
  match local with
  | None => remote
  | Some l =>
    match remote with
    | None => local
    | Some r =>
      let localTime := num_or (updatedAt l) 0 in
      let remoteTime := num_or (updatedAt r) 0 in
      if (remoteTime >? localTime)%Z then remote else local
    end
  end.

(** tag::push-filter, [push.filter]. *)
Definition push_filter (doc : Document) (flags : DocumentFlags) : bool :=
  if truthy (deleted flags) then false
  else strict_eq (completed doc) (JSBoolean true).

(** tag::pull-filter, [pull.filter]. *)
Definition pull_filter (doc : Document) (flags : DocumentFlags) : bool :=
  if truthy (deleted flags) then false
  else strict_eq (assignedTo doc) (JSString "currentUser@example.com").

Record ReplicatorError := {
  message : string;
  code : JSValue
}.

Record ReplicatorStatus := {
  status : string;
  error : option ReplicatorError
}.

(** The [switch (error.code)] of tag::error-handling; [case] compares
    with [===], and 500, 502, 503 and 504 fall through to one body. *)
Definition switch_code (c : JSValue) : list ConsoleCall :=
  if strict_eq c (JSNumber 401) then
    [console_error "Unauthorized - check credentials"]
  else if strict_eq c (JSNumber 404) then
    [console_error "Database not found on server"]
  else if strict_eq c (JSNumber 408) then
    [console_log "Request timeout - will retry"]
  else if strict_eq c (JSNumber 429) then
    [console_log "Too many requests - will retry"]
  else if strict_eq c (JSNumber 500) || strict_eq c (JSNumber 502)
          || strict_eq c (JSNumber 503) || strict_eq c (JSNumber 504) then
    [console_log "Server error - will retry"]
  else if strict_eq c (JSNumber 1001) then
    [console_log "DNS resolution error - will retry"]
  else
    [console_error_with "Unexpected error code:" c].

(** The trailing [if (status.status === 'stopped') ... else if ...]. *)
Definition status_after_error (s : string) : list ConsoleCall :=
  if String.eqb s "stopped" then
    [console_log "Replicator stopped - permanent error"]
  else if String.eqb s "offline" then
    [console_log "Replicator offline - will retry connection"]
  else [].

(** tag::error-handling, [replicator.onStatusChange]: the console calls
    the handler makes, in order. *)
Definition onStatusChange (st : ReplicatorStatus) : list ConsoleCall :=
  match error st with
  | None => []
  | Some err =>
    console_error_with "Replication error:" (JSString (message err))
    :: (if truthy (code err) then switch_code (code err) else [])
    ++ status_after_error (status st)
  end.

End Replication.

(** ** code_snippets.js: the page and [updateTaskList] *)

Module Dom.
Import JS Data.

(** The page is the tree of its nodes.  An element has a tag name, its
    [id] attribute (empty when it has none) and its child nodes. *)
#[local] Unset Elimination Schemes.
Inductive Node :=
  | Text (data : string)
  | Element (tagName : string) (id : string) (childNodes : list Node).
#[local] Set Elimination Schemes.

(** A node of the page is referred to by the indices leading to it from
    the root. *)
Definition Path := list nat.

(** [document.getElementById(i)]: the first element in document order
    whose id is [i], or none ([null]). *)
Fixpoint getElementById (i : string) (n : Node) : option Path :=
  match n with
  | Text _ => None
  | Element _ j cs =>
    if String.eqb j i then Some []
    else
      (fix first (k : nat) (cs : list Node) : option Path :=
         match cs with
         | [] => None
         | c :: cs' =>
           match getElementById i c with
           | Some p => Some (k :: p)
           | None => first (S k) cs'
           end
         end) 0%nat cs
  end.

(** The search of [getElementById] through a list of children, the first
    of which has index [k]. *)
Fixpoint first_in (i : string) (k : nat) (cs : list Node) : option Path :=
  match cs with
  | [] => None
  | c :: cs' =>
    match getElementById i c with
    | Some p => Some (k :: p)
    | None => first_in i (S k) cs'
    end
  end.

Fixpoint node_at (p : Path) (n : Node) : option Node :=
  match p with
  | [] => Some n
  | k :: p' =>
    match n with
    | Text _ => None
    | Element _ _ cs =>
      match cs !! k with
      | Some c => node_at p' c
      | None => None
      end
    end
  end.

(** Mutating the node at [p] in place. *)
Fixpoint update_at (p : Path) (f : Node -> Node) (n : Node) : Node :=
  match p with
  | [] => f n
  | k :: p' =>
    match n with
    | Text _ => n
    | Element t j cs => Element t j (alter (update_at p' f) k cs)
    end
  end.

Definition set_childNodes (cs : list Node) (n : Node) : Node :=
  match n with
  | Text _ => n
  | Element t j _ => Element t j cs
  end.

(** [document.createElement(tag)]: a new element, not yet in the page. *)
Definition createElement (tag : string) : Node := Element tag "" [].

(** [e.textContent = s]: the children become one text node, or none
    when [s] is empty. *)
Definition set_textContent (s : string) (e : Node) : Node :=
  set_childNodes (if String.eqb s "" then [] else [Text s]) e.

(** [e.innerHTML = '']: all children are removed. *)
Definition clear_innerHTML (e : Node) : Node := set_childNodes [] e.

(** [e.appendChild(c)] for a node [c] that is not in the page. *)
Definition appendChild (c : Node) (e : Node) : Node :=
  match e with
  | Text _ => e
  | Element t j cs => Element t j (cs ++ [c])
  end.

(** The [textContent] getter: the text of all descendants, in order. *)
Fixpoint textContent (n : Node) : string :=
  match n with
  | Text s => s
  | Element _ _ cs =>
    (fix all (cs : list Node) : string :=
       match cs with
       | [] => ""
       | c :: cs' => textContent c +:+ all cs'
       end) cs
  end.

(** The list item [updateTaskList] builds for a title. *)
Definition list_item (text : string) : Node :=
  set_textContent text (createElement "li").

(** How a call ends: it returns, or throws the [TypeError] of reading a
    property of [undefined]. *)
Inductive Outcome := Returned | ThrewTypeError.

(** The body of [for (const row of results)] in [updateTaskList], run on
    the rows in order with [taskList] the element found; [row.tasks.title]
    throws when the row has no [tasks]. *)
Fixpoint append_rows (taskList : Path) (results : list Row) (page : Node)
    : Node * Outcome :=
  match results with
  | [] => (page, Returned)
  | row :: rest =>
    match tasks row with
    | None => (page, ThrewTypeError)
    | Some task =>
      let li := createElement "li" in
      let li := set_textContent (title task) li in
      append_rows taskList rest (update_at taskList (appendChild li) page)
    end
  end.

(** [function updateTaskList(results)] of code_snippets.js. *)
Definition updateTaskList (results : list Row) (page : Node) : Node * Outcome :=
  match getElementById "task-list" page with
  | None => (page, Returned)
  | Some taskList =>
    append_rows taskList results (update_at taskList clear_innerHTML page)
  end.

End Dom.

(** ** The SDK as the snippets see it *)

Module Sdk.
Import JS Data.

(** The entry points the embedded snippets call: those of the SDK, and
    [fetch] with the [json] method of its response. *)
Inductive Api :=
  | Api_Database_open (name : string) (password : bool)
  | Api_Database_close (name : string)
  | Api_Database_reopen (name : string)
  | Api_Database_createQuery (sql : string)
  | Api_Collection_save (collection : string)
  | Api_Collection_getDocument (collection : string) (docID : string)
  | Api_Collection_deleteDocument (collection : string) (docID : string)
  | Api_Collection_addChangeListener (collection : string)
  | Api_Collection_removeChangeListener (collection : string)
  | Api_Collection_addDocumentChangeListener (collection : string) (docID : string)
  | Api_Collection_removeDocumentChangeListener (collection : string)
  | Api_Database_collection (name : string)
  | Api_Query_execute (sql : string)
  | Api_Query_setParameters (sql : string)
  | Api_Query_addChangeListener (sql : string)
  | Api_Query_start (sql : string)
  | Api_Query_stop (sql : string)
  | Api_Query_interrupt (sql : string)
  | Api_ListenerToken_remove
  | Api_Replicator_new (url : string)
  | Api_Replicator_onStatusChange
  | Api_Replicator_onDocuments
  | Api_Replicator_start
  | Api_Replicator_run
  | Api_Replicator_stop
  | Api_Replicator_getPendingDocumentIDs
  | Api_Replicator_isDocumentPending (docID : string)
  | Api_Blob_getURL
  | Api_Blob_getArrayBuffer
  | Api_fetch (url : string)
  | Api_Response_json.

(** The values a snippet variable can hold. *)
Inductive Value :=
  | VUndefined
  | VPrimitive (v : JSValue)
  | VDatabaseConfig (name : string) (password : bool)
  | VDatabase (name : string)
  | VCollection (name : string)
  | VDocument (d : option Document)
  | VQuery (sql : string)
  | VRows (rows : list Row)
  | VIds (ids : list string)
  | VReplicatorConfig (url : string)
  | VReplicator (url : string)
  | VToken (t : nat)
  | VResponse
  | VJson
  | VPromise (p : nat) (result : Value).

Inductive Exception :=
  | ReferenceError (name : string)
  | TypeError (what : string).

(** What a run leaves behind, in order: each SDK call (with the promise
    it returned, if it returned one), each [await] of a promise, each
    console call and each [setTimeout]. *)
Inductive Event :=
  | EvInvoke (api : Api) (promise : option nat)
  | EvAwait (p : nat)
  | EvConsole (c : ConsoleCall)
  | EvTimer (ms : Z).

(** The state a snippet runs in: the variables in scope, the SDK's
    documents, query results, documents pending push and active
    listeners, the next fresh identifier, and the events so far (latest
    last). *)
Record State := {
  scope : gmap string Value;
  docs : gmap string Document;
  rows_of : string -> list Row;
  pending : list string;
  listeners : gset nat;
  counter : nat;
  trace : list Event
}.

Inductive Completion (A : Type) :=
  | Normal (a : A)
  | Throw (e : Exception).
Arguments Normal {A} a.
Arguments Throw {A} e.

Definition M (A : Type) : Type := State -> State * Completion A.

#[global] Instance M_ret : MRet M := fun A a s => (s, Normal a).
#[global] Instance M_bind : MBind M := fun A B f m s =>
  match m s with
  | (s', Normal a) => f a s'
  | (s', Throw e) => (s', Throw e)
  end.

Definition throw {A} (e : Exception) : M A := fun s => (s, Throw e).

Definition with_scope (f : gmap string Value -> gmap string Value) (s : State) : State :=
  {| scope := f (scope s); docs := docs s; rows_of := rows_of s; pending := pending s;
     listeners := listeners s; counter := counter s; trace := trace s |}.
Definition with_docs (f : gmap string Document -> gmap string Document) (s : State) : State :=
  {| scope := scope s; docs := f (docs s); rows_of := rows_of s; pending := pending s;
     listeners := listeners s; counter := counter s; trace := trace s |}.
Definition with_listeners (f : gset nat -> gset nat) (s : State) : State :=
  {| scope := scope s; docs := docs s; rows_of := rows_of s; pending := pending s;
     listeners := f (listeners s); counter := counter s; trace := trace s |}.

(** Reading a variable; an unbound name is a [ReferenceError]. *)
Definition var (x : string) : M Value := fun s =>
  match scope s !! x with
  | Some v => (s, Normal v)
  | None => (s, Throw (ReferenceError x))
  end.

(** [const x = v]. *)
Definition const (x : string) (v : Value) : M unit := fun s =>
  (with_scope (insert x v) s, Normal tt).

Definition emit (e : Event) : M unit := fun s =>
  ({| scope := scope s; docs := docs s; rows_of := rows_of s; pending := pending s;
      listeners := listeners s; counter := counter s;
      trace := trace s ++ [e] |}, Normal tt).

Definition fresh : M nat := fun s =>
  ({| scope := scope s; docs := docs s; rows_of := rows_of s; pending := pending s;
      listeners := listeners s; counter := S (counter s);
      trace := trace s |}, Normal (counter s)).

Definition get {A} (f : State -> A) : M A := fun s => (s, Normal (f s)).
Definition modify (f : State -> State) : M unit := fun s => (f s, Normal tt).

(** A method that returns its result directly. *)
Definition invoke (api : Api) : M unit := emit (EvInvoke api None).

(** A method that returns a promise of [result].  The SDK's signatures
    are not part of this repository: a method is taken to return a
    promise when a snippet awaits its result or keeps it as a promise. *)
Definition invoke_promise (api : Api) (result : Value) : M Value :=
  p ← fresh; emit (EvInvoke api (Some p));; mret (VPromise p result).

(** [await v]: waits for a promise and yields its result; any other
    value is yielded as it is. *)
Definition await (v : Value) : M Value :=
  match v with
  | VPromise p r => emit (EvAwait p);; mret r
  | _ => mret v
  end.

Definition log (t : string) : M unit := emit (EvConsole (console_log t)).
Definition log_with (t : string) (v : JSValue) : M unit :=
  emit (EvConsole {| level := LevelLog; text := t; arg := Some v |}).

(** [setTimeout(f, ms)]: the callback is only scheduled. *)
Definition setTimeout (ms : Z) : M unit := emit (EvTimer ms).

(** [for (const x of xs) body]. *)
Fixpoint for_of {A} (xs : list A) (body : A -> M unit) : M unit :=
  match xs with
  | [] => mret tt
  | x :: xs' => body x;; for_of xs' body
  end.

(** [{ ... }]: names declared in the block are gone after it. *)
Definition block {A} (body : M A) : M A := fun s =>
  match body s with
  | (s', r) => (with_scope (fun _ => scope s) s', r)
  end.

(** [try { body } catch (error) { handler }]. *)
Definition try_catch (body : M unit) (handler : Exception -> M unit) : M unit :=
  fun s =>
    match body s with
    | (s', Throw e) => handler e s'
    | r => r
    end.

(** *** The platform *)

(** [fetch(url, options)]. *)
Definition fetch (url : string) : M Value :=
  invoke_promise (Api_fetch url) VResponse.

(** [response.json()]. *)
Definition json (response : Value) : M Value :=
  match response with
  | VResponse => invoke_promise Api_Response_json VJson
  | _ => throw (TypeError "json")
  end.

(** *** Database *)

(** [Database.open(config)]. *)
Definition Database_open (config : Value) : M Value :=
  match config with
  | VDatabaseConfig name password =>
    invoke_promise (Api_Database_open name password) (VDatabase name)
  | _ => throw (TypeError "config")
  end.

Definition close (db : Value) : M Value :=
  match db with
  | VDatabase n => invoke_promise (Api_Database_close n) VUndefined
  | _ => throw (TypeError "close")
  end.

Definition reopen (db : Value) : M Value :=
  match db with
  | VDatabase n => invoke_promise (Api_Database_reopen n) VUndefined
  | _ => throw (TypeError "reopen")
  end.

(** [database.collections.name]: a property read. *)
Definition collections (db : Value) (name : string) : M Value :=
  match db with
  | VDatabase _ => mret (VCollection name)
  | _ => throw (TypeError "collections")
  end.

(** [database.collection(name)]. *)
Definition collection (db : Value) (name : string) : M Value :=
  match db with
  | VDatabase _ => invoke_promise (Api_Database_collection name) (VCollection name)
  | _ => throw (TypeError "collection")
  end.

Definition createQuery (db : Value) (sql : string) : M Value :=
  match db with
  | VDatabase _ => invoke (Api_Database_createQuery sql);; mret (VQuery sql)
  | _ => throw (TypeError "createQuery")
  end.

(** *** Collections *)

(** [collection.save(doc)]: stores the document under its id; a document
    without an id gets a new one. *)
Definition save (c : Value) (d : Document) : M Value :=
  match c with
  | VCollection n =>
    k ← get counter;
    let d' :=
      if String.eqb (_id d) "" then
        {| _id := "doc-" +:+ pretty k;
           title := title d; completed := completed d;
           assignedTo := assignedTo d; updatedAt := updatedAt d |}
      else d in
    modify (with_docs (insert (_id d') d'));;
    invoke_promise (Api_Collection_save n) (VDocument (Some d'))
  | _ => throw (TypeError "save")
  end.

Definition getDocument (c : Value) (docID : string) : M Value :=
  match c with
  | VCollection n =>
    ds ← get docs;
    invoke_promise (Api_Collection_getDocument n docID) (VDocument (ds !! docID))
  | _ => throw (TypeError "getDocument")
  end.

Definition deleteDocument (c : Value) (docID : string) : M Value :=
  match c with
  | VCollection n =>
    modify (with_docs (delete docID));;
    invoke_promise (Api_Collection_deleteDocument n docID) VUndefined
  | _ => throw (TypeError "deleteDocument")
  end.

(** *** Listeners *)

Definition register (api : Api) : M Value :=
  t ← fresh;
  modify (with_listeners (fun ls => {[t]} ∪ ls));;
  invoke api;;
  mret (VToken t).

Definition unregister (api : Api) (token : Value) : M unit :=
  match token with
  | VToken t => modify (with_listeners (fun ls => ls ∖ {[t]}));; invoke api
  | _ => throw (TypeError "token")
  end.

(** [x.addChangeListener(callback)] on a collection or a query. *)
Definition addChangeListener (x : Value) : M Value :=
  match x with
  | VCollection n => register (Api_Collection_addChangeListener n)
  | VQuery q => register (Api_Query_addChangeListener q)
  | _ => throw (TypeError "addChangeListener")
  end.

Definition addDocumentChangeListener (c : Value) (docID : string) : M Value :=
  match c with
  | VCollection n => register (Api_Collection_addDocumentChangeListener n docID)
  | _ => throw (TypeError "addDocumentChangeListener")
  end.

Definition removeChangeListener (c : Value) (token : Value) : M unit :=
  match c with
  | VCollection n => unregister (Api_Collection_removeChangeListener n) token
  | _ => throw (TypeError "removeChangeListener")
  end.

Definition removeDocumentChangeListener (c : Value) (token : Value) : M unit :=
  match c with
  | VCollection n => unregister (Api_Collection_removeDocumentChangeListener n) token
  | _ => throw (TypeError "removeDocumentChangeListener")
  end.

(** [token.remove()]. *)
Definition remove (token : Value) : M unit := unregister Api_ListenerToken_remove token.

(** *** Queries *)

Definition execute (q : Value) : M Value :=
  match q with
  | VQuery sql =>
    rs ← get rows_of;
    invoke_promise (Api_Query_execute sql) (VRows (rs sql))
  | _ => throw (TypeError "execute")
  end.

(** [query.parameters = ...]. *)
Definition set_parameters (q : Value) : M unit :=
  match q with
  | VQuery sql => invoke (Api_Query_setParameters sql)
  | _ => throw (TypeError "parameters")
  end.

Definition query_method (api : string -> Api) (q : Value) : M unit :=
  match q with
  | VQuery sql => invoke (api sql)
  | _ => throw (TypeError "query")
  end.

(** *** Replicator *)

Definition new_Replicator (config : Value) : M Value :=
  match config with
  | VReplicatorConfig url => invoke (Api_Replicator_new url);; mret (VReplicator url)
  | _ => throw (TypeError "config")
  end.

(** [replicator.onStatusChange = handler]. *)
Definition set_onStatusChange (r : Value) : M unit :=
  match r with
  | VReplicator _ => invoke Api_Replicator_onStatusChange
  | _ => throw (TypeError "replicator")
  end.

(** [replicator.onDocuments = listener]. *)
Definition set_onDocuments (r : Value) : M unit :=
  match r with
  | VReplicator _ => invoke Api_Replicator_onDocuments
  | _ => throw (TypeError "replicator")
  end.

Definition replicator_method (api : Api) (result : Value) (r : Value) : M Value :=
  match r with
  | VReplicator _ => invoke_promise api result
  | _ => throw (TypeError "replicator")
  end.

End Sdk.

(** ** code_snippets.js: the tagged snippets

    Each snippet is the program between its [tag::] and [end::] lines.
    The snippets of this file are written for one shared scope; query
    texts are given with their white space normalised. *)

Module CodeSnippets.
Import JS Data Sdk.

Definition doc_id (v : Value) : M string :=
  match v with
  | VDocument (Some d) => mret (_id d)
  | _ => throw (TypeError "_id")
  end.

(** tag::open-database *)
Definition open_database : M unit :=
  const "config" (VDatabaseConfig "myapp" false);;
  config ← var "config";
  database ← Database_open config ≫= await;
  const "database" database;;
  database ← var "database";
  match database with
  | VDatabase name => log_with "Database opened:" (JSString name)
  | _ => log_with "Database opened:" JSUndefined
  end.

(** tag::open-database-encrypted *)
Definition open_database_encrypted : M unit :=
  const "encryptedConfig" (VDatabaseConfig "secure-app" true);;
  encryptedConfig ← var "encryptedConfig";
  secureDb ← Database_open encryptedConfig ≫= await;
  const "secureDb" secureDb.

(** tag::close-database *)
Definition close_database : M unit :=
  database ← var "database";
  close database ≫= await;;
  log "Database closed".

(** tag::reopen-database *)
Definition reopen_database : M unit :=
  database ← var "database";
  reopen database ≫= await;;
  log "Database reopened".

(** tag::access-collection *)
Definition access_collection : M unit :=
  database ← var "database";
  tasks ← collections database "tasks";
  const "tasks" tasks;;
  database ← var "database";
  users ← collections database "users";
  const "users" users.

(** tag::create-document *)
Definition create_document : M unit :=
  let task :=
    {| _id := ""; title := "Learn Couchbase Lite";
       completed := JSBoolean false; assignedTo := JSUndefined;
       updatedAt := None |} in
  tasks ← var "tasks";
  savedDoc ← save tasks task ≫= await;
  const "savedDoc" savedDoc;;
  savedDoc ← var "savedDoc";
  i ← doc_id savedDoc;
  log_with "Document created with ID:" (JSString i).

(** tag::get-document *)
Definition get_document : M unit :=
  tasks ← var "tasks";
  savedDoc ← var "savedDoc";
  i ← doc_id savedDoc;
  doc ← getDocument tasks i ≫= await;
  const "doc" doc;;
  match doc with
  | VDocument (Some d) => log_with "Task:" (JSString (title d))
  | _ => log "Document not found"
  end.

(** tag::update-document *)
Definition update_document : M unit :=
  tasks ← var "tasks";
  savedDoc ← var "savedDoc";
  i ← doc_id savedDoc;
  docToUpdate ← getDocument tasks i ≫= await;
  const "docToUpdate" docToUpdate;;
  match docToUpdate with
  | VDocument (Some d) =>
    let d' :=
      {| _id := _id d; title := title d; completed := JSBoolean true;
         assignedTo := assignedTo d; updatedAt := updatedAt d |} in
    tasks ← var "tasks";
    save tasks d' ≫= await;;
    log "Document updated"
  | _ => mret tt
  end.

(** tag::delete-document *)
Definition delete_document : M unit :=
  tasks ← var "tasks";
  savedDoc ← var "savedDoc";
  i ← doc_id savedDoc;
  deleteDocument tasks i ≫= await;;
  log "Document deleted".

Definition incomplete_tasks : string :=
  "SELECT * FROM tasks WHERE completed = false ORDER BY createdAt DESC".

(** tag::create-query *)
Definition create_query : M unit :=
  database ← var "database";
  query ← createQuery database incomplete_tasks;
  const "query" query.

(** tag::execute-query *)
Definition execute_query : M unit :=
  query ← var "query";
  results ← execute query ≫= await;
  const "results" results;;
  match results with
  | VRows rows =>
    for_of rows (fun row =>
      match tasks row with
      | Some task => log ("Task: " +:+ title task)
      | None => throw (TypeError "title")
      end);;
    log ("Found " +:+ pretty (List.length rows) +:+ " tasks")
  | _ => throw (TypeError "results")
  end.

(** tag::create-live-query *)
Definition create_live_query : M unit :=
  database ← var "database";
  liveQuery ← createQuery database incomplete_tasks;
  const "liveQuery" liveQuery;;
  liveQuery ← var "liveQuery";
  addChangeListener liveQuery;;
  liveQuery ← var "liveQuery";
  query_method Api_Query_start liveQuery.

(** tag::stop-live-query *)
Definition stop_live_query : M unit :=
  liveQuery ← var "liveQuery";
  query_method Api_Query_stop liveQuery.

Definition sync_gateway : string := "wss://sync-gateway.example.com:4984/myapp".

(** tag::create-replicator *)
Definition create_replicator : M unit :=
  var "database";;
  const "replicatorConfig" (VReplicatorConfig sync_gateway);;
  replicatorConfig ← var "replicatorConfig";
  replicator ← new_Replicator replicatorConfig;
  const "replicator" replicator.

(** tag::start-replication *)
Definition start_replication : M unit :=
  replicator ← var "replicator";
  replicator_method Api_Replicator_start VUndefined replicator ≫= await;;
  log "Replication started".

(** tag::stop-replication *)
Definition stop_replication : M unit :=
  replicator ← var "replicator";
  replicator_method Api_Replicator_stop VUndefined replicator ≫= await;;
  log "Replication stopped".

(** tag::collection-change-listener *)
Definition collection_change_listener : M unit :=
  tasks ← var "tasks";
  token ← addChangeListener tasks;
  const "token" token;;
  tasks ← var "tasks";
  token ← var "token";
  removeChangeListener tasks token.

(** tag::document-change-listener *)
Definition document_change_listener : M unit :=
  tasks ← var "tasks";
  savedDoc ← var "savedDoc";
  i ← doc_id savedDoc;
  docToken ← addDocumentChangeListener tasks i;
  const "docToken" docToken;;
  tasks ← var "tasks";
  docToken ← var "docToken";
  removeDocumentChangeListener tasks docToken.

(** tag::interrupt-query.  The promise of [query.execute] is kept in
    [executePromise] and awaited after the timer is set; the [catch]
    clause logs for an [InterruptedQueryError] only. *)
Definition interrupt_query : M unit :=
  database ← var "database";
  query ← createQuery database "SELECT * FROM tasks";
  const "query" query;;
  query ← var "query";
  executePromise ← execute query;
  const "executePromise" executePromise;;
  setTimeout 5000;;
  try_catch
    (executePromise ← var "executePromise"; await executePromise;; mret tt)
    (fun _ => mret tt).

Definition blob_query : string :=
  "SELECT title, attachment FROM documents WHERE attachment IS NOT NULL".

(** tag::blob-in-results *)
Definition blob_in_results : M unit :=
  database ← var "database";
  query ← createQuery database blob_query;
  const "query" query;;
  query ← var "query";
  results ← execute query ≫= await;
  const "results" results;;
  match results with
  | VRows rows =>
    for_of rows (fun row =>
      match attachment row with
      | Some blob =>
        invoke Api_Blob_getURL;;
        invoke_promise Api_Blob_getArrayBuffer VUndefined ≫= await;;
        log ("Document: " +:+ default "undefined" (column_title row));;
        log ("Attachment size: " +:+ pretty (blob_length blob) +:+ " bytes")
      | None => mret tt
      end)
  | _ => throw (TypeError "results")
  end.

End CodeSnippets.

(** ** replication_snippets.js: the tagged snippets *)

Module ReplicationSnippets.
Import JS Data Sdk.

Definition sync_gateway : string := "wss://sync-gateway.example.com:4984/myapp".

(** [const x = { database: database, url: ..., ... }]: the object literal
    reads [database]; of the configuration the url is kept. *)
Definition const_config (x : string) : M unit :=
  var "database";;
  const x (VReplicatorConfig sync_gateway).

(** [const replicator = new Replicator(replicatorConfig)]. *)
Definition const_replicator : M unit :=
  replicatorConfig ← var "replicatorConfig";
  replicator ← new_Replicator replicatorConfig;
  const "replicator" replicator.

(** tag::simple-replication *)
Definition simple_replication : M unit :=
  database ← Database_open (VDatabaseConfig "myapp" false) ≫= await;
  const "database" database;;
  const_config "replicatorConfig";;
  const_replicator;;
  replicator ← var "replicator";
  set_onStatusChange replicator;;
  replicator ← var "replicator";
  replicator_method Api_Replicator_run VUndefined replicator ≫= await;;
  mret tt.

(** tag::config-target *)
Definition config_target : M unit := const_config "replicatorConfig".

(** tag::config-sync-mode *)
Definition config_sync_mode : M unit :=
  const_config "bidirectionalConfig";;
  const_config "pullOnlyConfig";;
  const_config "pushOnlyConfig".

(** tag::basic-authentication *)
Definition basic_authentication : M unit :=
  const_config "replicatorConfig";; const_replicator.

(** tag::session-authentication *)
Definition session_authentication : M unit :=
  response ← fetch "https://sync-gateway.example.com:4984/myapp/_session" ≫= await;
  const "response" response;;
  response ← var "response";
  sessionData ← json response ≫= await;
  const "sessionData" sessionData;;
  var "database";;
  var "sessionData";;
  const "replicatorConfig" (VReplicatorConfig sync_gateway);;
  const_replicator.

(** tag::custom-headers *)
Definition custom_headers : M unit :=
  const_config "replicatorConfig";; const_replicator.

(** tag::push-filter; the filter is [Replication.push_filter]. *)
Definition push_filter : M unit :=
  const_config "replicatorConfig";; const_replicator.

(** tag::pull-filter; the filter is [Replication.pull_filter]. *)
Definition pull_filter : M unit :=
  const_config "replicatorConfig";; const_replicator.

(** tag::start-replicator *)
Definition start_replicator : M unit :=
  const_replicator;;
  replicator ← var "replicator";
  replicator_method Api_Replicator_run VUndefined replicator ≫= await;;
  log "Replication started".

(** tag::replication-status: the handler is installed, not called. *)
Definition replication_status : M unit :=
  replicator ← var "replicator";
  set_onStatusChange replicator.

(** tag::document-replication-listener *)
Definition document_replication_listener : M unit :=
  replicator ← var "replicator";
  set_onDocuments replicator.

(** tag::pending-documents *)
Definition pending_documents : M unit :=
  database ← var "database";
  tasksCollection ← collection database "tasks" ≫= await;
  const "tasksCollection" tasksCollection;;
  replicator ← var "replicator";
  var "tasksCollection";;
  ids ← get pending;
  pendingDocs ← replicator_method Api_Replicator_getPendingDocumentIDs (VIds ids)
                  replicator ≫= await;
  const "pendingDocs" pendingDocs;;
  match pendingDocs with
  | VIds l =>
    if (0 <? Z.of_nat (List.length l))%Z then
      log (pretty (List.length l) +:+ " documents pending push");;
      log "Pending document IDs:"
    else log "No documents pending push"
  | _ => throw (TypeError "length")
  end;;
  const "docId" (VPrimitive (JSString "task-123"));;
  replicator ← var "replicator";
  var "tasksCollection";;
  var "docId";;
  ids ← get pending;
  let answer := bool_decide ("task-123" ∈ ids) in
  isPending ← replicator_method (Api_Replicator_isDocumentPending "task-123")
                (VPrimitive (JSBoolean answer)) replicator ≫= await;
  const "isPending" isPending;;
  match isPending with
  | VPrimitive v =>
    log ("Document task-123 is " +:+ (if truthy v then "pending" else "not pending"))
  | _ => log "Document task-123 is pending"
  end.

(** tag::stop-replicator *)
Definition stop_replicator : M unit :=
  replicator ← var "replicator";
  replicator_method Api_Replicator_stop VUndefined replicator;;
  log "Replication stopped".

(** tag::error-handling; the handler is [Replication.onStatusChange]. *)
Definition error_handling : M unit :=
  replicator ← var "replicator";
  set_onStatusChange replicator.

(** tag::collection-config *)
Definition collection_config : M unit :=
  const_config "replicatorConfig";; const_replicator.

(** tag::document-ids-filter *)
Definition document_ids_filter : M unit :=
  const_config "replicatorConfig";; const_replicator.

(** tag::reset-checkpoint *)
Definition reset_checkpoint : M unit :=
  const_config "replicatorConfig";; const_replicator.

(** tag::conflict-resolver; the resolver is [Replication.conflictResolver]. *)
Definition conflict_resolver : M unit :=
  const_config "replicatorConfig";; const_replicator.

(** tag::advanced-config *)
Definition advanced_config : M unit :=
  const_config "replicatorConfig";;
  const_replicator;;
  replicator ← var "replicator";
  set_onStatusChange replicator;;
  replicator ← var "replicator";
  set_onDocuments replicator;;
  replicator ← var "replicator";
  replicator_method Api_Replicator_run VUndefined replicator ≫= await;;
  mret tt.

End ReplicationSnippets.

(** ** queries.ts: live-query snippets

    Every snippet of this file sits in a block of its own that first
    opens the database; some blocks go on after the [end::] line. *)

Module Queries.
Import JS Data Sdk.

(** The first statement of each block. *)
Definition open_mydb : M unit :=
  database ← Database_open (VDatabaseConfig "mydb" false) ≫= await;
  const "database" database.

(** [token.remove()] on the variable [x]. *)
Definition remove_token (x : string) : M unit :=
  token ← var x;
  remove token.

(** tag::live-query *)
Definition live_query : M unit :=
  database ← var "database";
  query ← createQuery database
    "SELECT title FROM tasks WHERE completed = false ORDER BY createdAt DESC";
  const "query" query;;
  query ← var "query";
  token ← addChangeListener query;
  const "token" token.

(** The block around tag::live-query. *)
Definition live_query_block : M unit :=
  block (open_mydb;; live_query;; remove_token "token").

(** tag::remove-listener *)
Definition remove_listener : M unit :=
  database ← var "database";
  query ← createQuery database "SELECT * FROM tasks WHERE completed = false";
  const "query" query;;
  query ← var "query";
  token ← addChangeListener query;
  const "token" token;;
  remove_token "token";;
  log "Listener removed".

Definition remove_listener_block : M unit :=
  block (open_mydb;; remove_listener).

(** tag::multiple-listeners *)
Definition multiple_listeners : M unit :=
  database ← var "database";
  query ← createQuery database "SELECT * FROM tasks WHERE priority >= 3";
  const "query" query;;
  query ← var "query";
  uiToken ← addChangeListener query;
  const "uiToken" uiToken;;
  query ← var "query";
  logToken ← addChangeListener query;
  const "logToken" logToken;;
  query ← var "query";
  analyticsToken ← addChangeListener query;
  const "analyticsToken" analyticsToken;;
  remove_token "uiToken";;
  remove_token "logToken";;
  remove_token "analyticsToken".

Definition multiple_listeners_block : M unit :=
  block (open_mydb;; multiple_listeners).

(** tag::typescript-live-query *)
Definition typescript_live_query : M unit :=
  database ← var "database";
  query ← createQuery database
    "SELECT title, completed, priority, createdAt FROM tasks WHERE completed = false";
  const "query" query;;
  query ← var "query";
  token ← addChangeListener query;
  const "token" token.

(** The block around tag::typescript-live-query ends with the snippet. *)
Definition typescript_live_query_block : M unit :=
  block (open_mydb;; typescript_live_query).

(** tag::live-query-errors *)
Definition live_query_errors : M unit :=
  database ← var "database";
  query ← createQuery database "SELECT * FROM tasks";
  const "query" query;;
  query ← var "query";
  addChangeListener query;;
  try_catch
    (query ← var "query"; addChangeListener query;; mret tt)
    (fun _ => emit (EvConsole (console_error "Failed to create live query listener:"))).

Definition live_query_errors_block : M unit :=
  block (open_mydb;; live_query_errors).

(** tag::live-query-parameters *)
Definition live_query_parameters : M unit :=
  database ← var "database";
  query ← createQuery database
    "SELECT * FROM tasks WHERE status = $status AND priority >= $minPriority ORDER BY createdAt DESC";
  const "query" query;;
  query ← var "query";
  set_parameters query;;
  query ← var "query";
  token ← addChangeListener query;
  const "token" token;;
  query ← var "query";
  set_parameters query.

Definition live_query_parameters_block : M unit :=
  block (open_mydb;; live_query_parameters;; remove_token "token").

(** tag::live-query-performance *)
Definition live_query_performance : M unit :=
  database ← var "database";
  query ← createQuery database
    "SELECT * FROM tasks WHERE completed = false ORDER BY createdAt DESC";
  const "query" query;;
  query ← var "query";
  token ← addChangeListener query;
  const "token" token;;
  query ← var "query";
  batchToken ← addChangeListener query;
  const "batchToken" batchToken.

Definition live_query_performance_block : M unit :=
  block (open_mydb;; live_query_performance;;
         remove_token "token";; remove_token "batchToken").

(** tag::live-query-pagination; [updatePage(0)] sets the parameters. *)
Definition live_query_pagination : M unit :=
  database ← var "database";
  query ← createQuery database
    "SELECT * FROM tasks WHERE completed = false ORDER BY createdAt DESC LIMIT $limit OFFSET $offset";
  const "query" query;;
  query ← var "query";
  token ← addChangeListener query;
  const "token" token;;
  query ← var "query";
  set_parameters query.

Definition live_query_pagination_block : M unit :=
  block (open_mydb;; live_query_pagination;; remove_token "token").

(** tag::live-query-filter; the handler on the search input is installed
    on the page, not with the SDK. *)
Definition live_query_filter : M unit :=
  database ← var "database";
  searchQuery ← createQuery database
    "SELECT * FROM tasks WHERE title LIKE $searchTerm OR description LIKE $searchTerm ORDER BY createdAt DESC";
  const "searchQuery" searchQuery;;
  searchQuery ← var "searchQuery";
  token ← addChangeListener searchQuery;
  const "token" token.

Definition live_query_filter_block : M unit :=
  block (open_mydb;; live_query_filter;; remove_token "token").

(** tag::live-query-aggregate *)
Definition live_query_aggregate : M unit :=
  database ← var "database";
  statsQuery ← createQuery database
    "SELECT COUNT(*) AS total, SUM(CASE WHEN completed THEN 1 ELSE 0 END) AS completedCount, SUM(CASE WHEN NOT completed THEN 1 ELSE 0 END) AS pendingCount, AVG(priority) AS avgPriority FROM tasks";
  const "statsQuery" statsQuery;;
  statsQuery ← var "statsQuery";
  token ← addChangeListener statsQuery;
  const "token" token.

Definition live_query_aggregate_block : M unit :=
  block (open_mydb;; live_query_aggregate;; remove_token "token").

(** tag::live-query-cleanup: [class LiveQueryComponent].  The field
    [tokens] is the list the methods push to. *)
Definition setupQueries (tokens : list Value) : M (list Value) :=
  database ← var "database";
  query1 ← createQuery database "SELECT * FROM tasks WHERE priority = 1";
  token1 ← addChangeListener query1;
  let tokens := tokens ++ [token1] in
  database ← var "database";
  query2 ← createQuery database "SELECT * FROM tasks WHERE priority >= 3";
  token2 ← addChangeListener query2;
  let tokens := tokens ++ [token2] in
  database ← var "database";
  query3 ← createQuery database "SELECT * FROM tasks WHERE completed = true";
  token3 ← addChangeListener query3;
  let tokens := tokens ++ [token3] in
  mret tokens.

(** [cleanup()]. *)
Definition cleanup (tokens : list Value) : M (list Value) :=
  for_of tokens remove;;
  log "All live query listeners removed";;
  mret [].

(** The usage lines: [cleanup] is left to the [beforeunload] handler. *)
Definition live_query_cleanup : M unit :=
  setupQueries [];;
  mret tt.

Definition live_query_cleanup_block : M unit :=
  block (open_mydb;; live_query_cleanup).

(** *** tag::live-query-lifecycle: [class TaskManager] *)

(** The private fields; [None] is [null]. *)
Record TaskManager := {
  query : option Value;
  database : option Value;
  listenerToken : option Value
}.

(** [new TaskManager()]. *)
Definition new_TaskManager : TaskManager :=
  {| query := None; database := None; listenerToken := None |}.

(** [async start()]; the value is the object when the promise resolves. *)
Definition start (this : TaskManager) : M TaskManager :=
  db ← Database_open (VDatabaseConfig "mydb" false) ≫= await;
  let this := {| query := query this; database := Some db;
                 listenerToken := listenerToken this |} in
  q ← createQuery db
    "SELECT * FROM tasks WHERE assignedTo = $userId AND completed = false";
  let this := {| query := Some q; database := database this;
                 listenerToken := listenerToken this |} in
  set_parameters q;;
  token ← addChangeListener q;
  let this := {| query := query this; database := database this;
                 listenerToken := Some token |} in
  log "Live query started";;
  mret this.

(** [updateParameters(userId)]. *)
Definition updateParameters (userId : string) (this : TaskManager) : M TaskManager :=
  match query this with
  | Some q => set_parameters q;; mret this
  | None => mret this
  end.

(** [stop()]. *)
Definition stop (this : TaskManager) : M TaskManager :=
  match listenerToken this with
  | Some token =>
    remove token;;
    let this := {| query := query this; database := database this;
                   listenerToken := None |} in
    log "Live query stopped";;
    mret this
  | None => mret this
  end.

(** [onResultsChanged(results)]; the private [updateUI] has an empty body. *)
Definition onResultsChanged (results : list Row) (this : TaskManager) : M TaskManager :=
  log ("Tasks updated: " +:+ pretty (List.length results));;
  mret this.

(** The usage lines of tag::live-query-lifecycle. *)
Definition live_query_lifecycle : M unit :=
  let manager := new_TaskManager in
  manager ← start manager;
  manager ← updateParameters "different-user" manager;
  stop manager;;
  mret tt.

(** The public methods, for running sequences of calls on one object. *)
Inductive Method :=
  | CallStart
  | CallUpdateParameters (userId : string)
  | CallStop.

Definition call (m : Method) (this : TaskManager) : M TaskManager :=
  match m with
  | CallStart => start this
  | CallUpdateParameters u => updateParameters u this
  | CallStop => stop this
  end.

Fixpoint calls (ms : list Method) (this : TaskManager) : M TaskManager :=
  match ms with
  | [] => mret this
  | m :: ms' => this' ← call m this; calls ms' this'
  end.

End Queries.

(** ** Running snippets *)

Module Run.
Import JS Data Sdk.

(** A page load: nothing in scope, nothing registered, nothing logged;
    the SDK's data is what the application has. *)
Definition initial (documents : gmap string Document)
    (rows : string -> list Row) (pending_ids : list string) : State :=
  {| scope := ∅; docs := documents; rows_of := rows; pending := pending_ids;
     listeners := ∅; counter := 0; trace := [] |}.

(** The empty application. *)
Definition empty : State := initial ∅ (fun _ => []) [].

(** A tagged snippet of the corpus. *)
Record Snippet := {
  tag : string;
  body : M unit
}.

(** The events a run of [m] adds to the trace of [s]. *)
Definition events {A} (m : M A) (s : State) : list Event :=
  drop (List.length (trace s)) (trace (fst (m s))).

Definition completion {A} (m : M A) (s : State) : Completion A := snd (m s).

End Run.

(** ** Data for the examples *)

Module Examples.
Import JS Data Dom Sdk Run.

(** Two versions of one task, for the examples below. *)
Definition older : Document :=
  {| _id := "task-1"; title := "Write report"; completed := JSBoolean false;
     assignedTo := JSUndefined; updatedAt := Some 1%Z |}.
Definition newer : Document :=
  {| _id := "task-1"; title := "Write report"; completed := JSBoolean true;
     assignedTo := JSUndefined; updatedAt := Some 2%Z |}.
Definition not_deleted : DocumentFlags := {| deleted := JSBoolean false |}.

(** A page with a heading and a task list, and two query rows. *)
Definition sample_page : Node :=
  Element "body" ""
    [Element "h1" "" [Text "Tasks"];
     Element "ul" "task-list" [Element "li" "" [Text "stale"]]].
Definition sample_rows : list Row :=
  [{| tasks := Some older; column_title := None; attachment := None |};
   {| tasks := Some newer; column_title := None; attachment := None |}].


(** An application whose only query row carries an attachment. *)
Definition with_attachment : State :=
  initial ∅
    (fun _ => [{| tasks := Some older; column_title := Some "Report";
                  attachment := Some {| blob_length := 2048 |} |}])
    ["task-123"].

(** The tagged snippets embedded above, by file. *)
Definition code_snippets_js : list Snippet :=
  [ {| tag := "open-database"; body := CodeSnippets.open_database |};
    {| tag := "open-database-encrypted"; body := CodeSnippets.open_database_encrypted |};
    {| tag := "close-database"; body := CodeSnippets.close_database |};
    {| tag := "reopen-database"; body := CodeSnippets.reopen_database |};
    {| tag := "access-collection"; body := CodeSnippets.access_collection |};
    {| tag := "create-document"; body := CodeSnippets.create_document |};
    {| tag := "get-document"; body := CodeSnippets.get_document |};
    {| tag := "update-document"; body := CodeSnippets.update_document |};
    {| tag := "delete-document"; body := CodeSnippets.delete_document |};
    {| tag := "create-query"; body := CodeSnippets.create_query |};
    {| tag := "execute-query"; body := CodeSnippets.execute_query |};
    {| tag := "create-live-query"; body := CodeSnippets.create_live_query |};
    {| tag := "stop-live-query"; body := CodeSnippets.stop_live_query |};
    {| tag := "create-replicator"; body := CodeSnippets.create_replicator |};
    {| tag := "start-replication"; body := CodeSnippets.start_replication |};
    {| tag := "stop-replication"; body := CodeSnippets.stop_replication |};
    {| tag := "collection-change-listener"; body := CodeSnippets.collection_change_listener |};
    {| tag := "document-change-listener"; body := CodeSnippets.document_change_listener |};
    {| tag := "interrupt-query"; body := CodeSnippets.interrupt_query |};
    {| tag := "blob-in-results"; body := CodeSnippets.blob_in_results |} ].

(** Every tagged snippet of replication_snippets.js. *)
Definition replication_snippets_js : list Snippet :=
  [ {| tag := "simple-replication"; body := ReplicationSnippets.simple_replication |};
    {| tag := "config-target"; body := ReplicationSnippets.config_target |};
    {| tag := "config-sync-mode"; body := ReplicationSnippets.config_sync_mode |};
    {| tag := "basic-authentication"; body := ReplicationSnippets.basic_authentication |};
    {| tag := "session-authentication"; body := ReplicationSnippets.session_authentication |};
    {| tag := "custom-headers"; body := ReplicationSnippets.custom_headers |};
    {| tag := "push-filter"; body := ReplicationSnippets.push_filter |};
    {| tag := "pull-filter"; body := ReplicationSnippets.pull_filter |};
    {| tag := "start-replicator"; body := ReplicationSnippets.start_replicator |};
    {| tag := "replication-status"; body := ReplicationSnippets.replication_status |};
    {| tag := "document-replication-listener"; body := ReplicationSnippets.document_replication_listener |};
    {| tag := "pending-documents"; body := ReplicationSnippets.pending_documents |};
    {| tag := "stop-replicator"; body := ReplicationSnippets.stop_replicator |};
    {| tag := "error-handling"; body := ReplicationSnippets.error_handling |};
    {| tag := "collection-config"; body := ReplicationSnippets.collection_config |};
    {| tag := "document-ids-filter"; body := ReplicationSnippets.document_ids_filter |};
    {| tag := "reset-checkpoint"; body := ReplicationSnippets.reset_checkpoint |};
    {| tag := "conflict-resolver"; body := ReplicationSnippets.conflict_resolver |};
    {| tag := "advanced-config"; body := ReplicationSnippets.advanced_config |} ].

Definition queries_ts : list Snippet :=
  [ {| tag := "live-query"; body := Queries.live_query |};
    {| tag := "remove-listener"; body := Queries.remove_listener |};
    {| tag := "multiple-listeners"; body := Queries.multiple_listeners |};
    {| tag := "typescript-live-query"; body := Queries.typescript_live_query |};
    {| tag := "live-query-errors"; body := Queries.live_query_errors |};
    {| tag := "live-query-lifecycle"; body := Queries.live_query_lifecycle |};
    {| tag := "live-query-parameters"; body := Queries.live_query_parameters |};
    {| tag := "live-query-performance"; body := Queries.live_query_performance |};
    {| tag := "live-query-pagination"; body := Queries.live_query_pagination |};
    {| tag := "live-query-filter"; body := Queries.live_query_filter |};
    {| tag := "live-query-aggregate"; body := Queries.live_query_aggregate |};
    {| tag := "live-query-cleanup"; body := Queries.live_query_cleanup |} ].

Definition corpus : list Snippet :=
  code_snippets_js ++ replication_snippets_js ++ queries_ts.

(** The state after the snippets [ms] have run one after the other. *)
Definition after (ms : list (M unit)) (s : State) : State :=
  fold_left (fun s m => fst (m s)) ms s.

(** State after the two snippets that bind [database] and [replicator]. *)
Definition replicating : State :=
  after [CodeSnippets.open_database; CodeSnippets.create_replicator] Run.empty.

(** State after a task has been saved: [database], [tasks] and [savedDoc]
    are bound. *)
Definition with_task : State :=
  after [CodeSnippets.open_database; CodeSnippets.access_collection;
         CodeSnippets.create_document] Run.empty.

End Examples.

(** ** The properties, as predicates *)

Module Properties.
Import JS Data Sdk Run.

(** A function of a document is a call-through when its result does not
    depend on what the document holds. *)
Definition call_through {A} (f : Document -> A) : Prop :=
  forall d d', f d = f d'.

(** A resolver without logic of its own hands back one fixed side. *)
Definition forwards_one_side
    (f : option Document -> option Document -> option Document) : Prop :=
  (forall l r, f l r = l) \/ (forall l r, f l r = r).

(** [updatedAt], taken as 0 when missing. *)
Definition timestamp (d : Document) : Z := default 0%Z (updatedAt d).

(** The three kinds of report of the status handler's [switch]. *)
Inductive Report := NonRetryReport | WillRetryReport | UnexpectedCodeReport.






(** Listener tokens are handed out from the counter. *)
Definition tokens_fresh (s : State) : Prop :=
  forall t, t ∈ listeners s -> (t < counter s)%nat.

(** The run of [m] leaves the listeners active that were active before. *)
Definition removes_its_listeners (m : M unit) : Prop :=
  forall s : State,
    tokens_fresh s -> completion m s = Normal tt ->
    listeners (fst (m s)) = listeners s.

(** Every promise handed to the snippet is awaited before anything else
    happens. *)
Fixpoint awaits_each_promise (evs : list Event) : bool :=
  match evs with
  | [] => true
  | EvInvoke _ (Some p) :: rest =>
    match rest with
    | EvAwait q :: rest' => Nat.eqb p q && awaits_each_promise rest'
    | _ => false
    end
  | _ :: rest => awaits_each_promise rest
  end.

(** The run of [m] from any state adds events that satisfy [P]. *)
Definition emits {A} (P : list Event -> Prop) (m : M A) : Prop :=
  forall s : State, exists evs,
    trace (fst (m s)) = trace s ++ evs /\ P evs.

Definition call_and_await (evs : list Event) : Prop :=
  awaits_each_promise evs = true.

(** The topics of the documentation. *)
Inductive Topic :=
  | DatabaseOpenClose
  | Crud
  | Querying
  | LiveQueries
  | ReplicationTopic
  | Blobs
  | Encryption.

(** The SDK entry points of each topic. *)
Definition covers (t : Topic) (api : Api) : bool :=
  match t, api with
  | DatabaseOpenClose, (Api_Database_open _ _ | Api_Database_close _
                       | Api_Database_reopen _) => true
  | Crud, (Api_Collection_save _ | Api_Collection_getDocument _ _
          | Api_Collection_deleteDocument _ _) => true
  | Querying, (Api_Database_createQuery _ | Api_Query_execute _) => true
  | LiveQueries, (Api_Query_addChangeListener _ | Api_Query_start _
                 | Api_Query_stop _) => true
  | ReplicationTopic, (Api_Replicator_new _ | Api_Replicator_onStatusChange
                      | Api_Replicator_start | Api_Replicator_run
                      | Api_Replicator_stop | Api_Replicator_getPendingDocumentIDs
                      | Api_Replicator_isDocumentPending _) => true
  | Blobs, (Api_Blob_getURL | Api_Blob_getArrayBuffer) => true
  | Encryption, Api_Database_open _ true => true
  | _, _ => false
  end.

(** The SDK calls among some events. *)
Definition invoked (evs : list Event) : list Api :=
  omap (fun e => match e with EvInvoke api _ => Some api | _ => None end) evs.

(** A run of the snippet from [s] calls the SDK for topic [t]. *)
Definition calls_topic (t : Topic) (sn : Snippet) (s : State) : Prop :=
  exists api, api ∈ invoked (events (body sn) s) /\ covers t api = true.


(** The run of [m], when it completes, leaves the listeners [ts] of its
    own active. *)
Definition leaves_listening (m : M unit) (ts : nat -> gset nat) : Prop :=
  forall s : State,
    completion m s = Normal tt ->
    listeners (fst (m s)) = ts (counter s) ∪ listeners s.

(** The snippet shown for each topic. *)
Definition showcase (t : Topic) : string :=
  match t with
  | DatabaseOpenClose => "close-database"
  | Crud => "create-document"
  | Querying => "execute-query"
  | LiveQueries => "create-live-query"
  | ReplicationTopic => "start-replication"
  | Blobs => "blob-in-results"
  | Encryption => "open-database-encrypted"
  end.




End Properties.

(** ** replication_snippets.js: the monitoring handlers *)

Module Console.
Import JS.

(** What a console call is given after its text: a primitive value or an
    error object of the replicator. *)
Inductive Shown :=
  | ShownValue (v : JSValue)
  | ShownError (e : Replication.ReplicatorError).

Record Line := {
  line_level : Level;
  line_text : string;
  line_shown : option Shown
}.

Definition log (t : string) : Line :=
  {| line_level := LevelLog; line_text := t; line_shown := None |}.
Definition log_value (t : string) (v : JSValue) : Line :=
  {| line_level := LevelLog; line_text := t; line_shown := Some (ShownValue v) |}.
Definition error_with (t : string) (e : Replication.ReplicatorError) : Line :=
  {| line_level := LevelError; line_text := t; line_shown := Some (ShownError e) |}.

Definition is_error (l : Line) : bool :=
  match line_level l with
  | LevelError => true
  | LevelLog => false
  end.

End Console.

Module ReplicationStatus.
Import JS Console.

(** The status the replicator hands to [onStatusChange]; a progress
    counter or an error that is [undefined] is [None]. *)
Record Status := {
  status : string;
  pulledRevisions : option Z;
  pushedRevisions : option Z;
  error : option Replication.ReplicatorError
}.

(** tag::replication-status, [replicator.onStatusChange]: the console
    calls of the handler, in order. *)
Definition onStatusChange (st : Status) : list Line :=
  [log_value "Replication status:" (JSString (status st))]
  ++ match pulledRevisions st with
     | Some n => [log_value "Documents pulled:" (JSNumber n)]
     | None => []
     end
  ++ match pushedRevisions st with
     | Some n => [log_value "Documents pushed:" (JSNumber n)]
     | None => []
     end
  ++ match error st with
     | Some e =>
       error_with "Replication error:" e
       :: (if String.eqb (status st) "offline" then
             [log "Replicator is offline, will retry..."]
           else if String.eqb (status st) "stopped" then
             [log "Replicator stopped due to error"]
           else [])
     | None => []
     end
  ++ (if String.eqb (status st) "connecting" then [log "Connecting to server..."]
      else if String.eqb (status st) "busy" then [log "Actively transferring data"]
      else if String.eqb (status st) "idle" then [log "Caught up with server"]
      else if String.eqb (status st) "stopped" then [log "Replication stopped"]
      else []).

End ReplicationStatus.

Module DocumentReplication.
Import JS Data Console.

(** A document as the replicator reports it to [onDocuments]. *)
Record ReplicatedDocument := {
  id : string;
  error : option Replication.ReplicatorError;
  flags : option DocumentFlags
}.

(** The body of [for (const doc of documents)]; [doc.flags?.deleted] is
    [undefined] without flags. *)
Definition report (direction : string) (doc : ReplicatedDocument) : Line :=
  match error doc with
  | Some e => error_with ("Error " +:+ direction +:+ "ing " +:+ id doc +:+ ":") e
  | None =>
    if truthy (default JSUndefined (deleted <$> flags doc)) then
      log ("Document " +:+ id doc +:+ " was deleted")
    else
      log ("Document " +:+ id doc +:+ " " +:+ direction +:+ "ed successfully")
  end.

(** tag::document-replication-listener, [replicator.onDocuments]. *)
Definition onDocuments (collection_name direction : string)
    (documents : list ReplicatedDocument) : list Line :=
  log (direction +:+ " - " +:+ pretty (List.length documents)
       +:+ " documents in " +:+ collection_name)
  :: (report direction <$> documents).

End DocumentReplication.

(** ** The functions of tag::advanced-config *)

Module AdvancedConfig.
Import JS Data.

(** A document as a JavaScript object: its properties by name. *)
Abbreviation Object := (gmap string JSValue).

(** [o.k]: a property the object does not have reads as [undefined]. *)
Definition prop (k : string) (o : Object) : JSValue := default JSUndefined (o !! k).

(** [a > b] on timestamps: a comparison with [undefined] is false. *)
Definition gt (a b : option Z) : bool :=
  match a, b with
  | Some x, Some y => (x >? y)%Z
  | _, _ => false
  end.

(** replication_snippets.js, [pull.filter]. *)
Definition pull_filter (doc : Object) (flags : DocumentFlags) : bool :=
  negb (truthy (deleted flags)).

(** replication_snippets.js, [pull.conflictResolver]; [d?.updatedAt] of an
    absent document is [undefined]. *)
Definition conflictResolver (id : string) (local remote : option Document)
    : option Document :=
  if gt (remote ≫= updatedAt) (local ≫= updatedAt) then remote else local.

(** replication_snippets.js, [push.filter]. *)
Definition push_filter (doc : Object) (flags : DocumentFlags) : bool :=
  negb (truthy (deleted flags))
  && negb (strict_eq (prop "synced" doc) (JSBoolean false)).

(** [pull.conflictResolver] in the TypeScript copy of the replication
    snippets, the type-checked variant, which defaults both timestamps to
    0 before comparing. *)
Definition conflictResolver_ts (local remote : option Document) : option Document :=
  let remoteUpdatedAt := num_or (remote ≫= updatedAt) 0 in
  let localUpdatedAt := num_or (local ≫= updatedAt) 0 in
  if (remoteUpdatedAt >? localUpdatedAt)%Z then remote else local.

End AdvancedConfig.

(** ** code_snippets.js: conflict resolution strategies *)

Module ConflictResolvers.
Import JS AdvancedConfig.

(** tag::local-win-resolver *)
Definition localWinsResolver (local remote : option Object) : option Object := local.

(** tag::remote-win-resolver *)
Definition remoteWinsResolver (local remote : option Object) : option Object := remote.

(** tag::merge-resolver.  [{ ...local, ...remote }] has the properties of
    both, with the value of [remote] where both have one; [local ?? remote]
    is [remote] when [local] is absent. *)
Definition mergeResolver (local remote : option Object) : option Object :=
  match local, remote with
  | Some l, Some r => Some (r ∪ l)
  | _, _ =>
    match local with
    | Some _ => local
    | None => remote
    end
  end.

(** tag::delete-resolver *)
Definition deleteResolver (local remote : option Object) : option Object := None.

End ConflictResolvers.

(** ** code_snippets.js: conflict handlers of [save] *)

Module SaveConflict.

(** [interface Task] of tag::database-schema, without its constant [type]. *)
Record Task := {
  title : string;
  completed : bool;
  priority : Z;
  createdAt : string
}.

(** What a conflict handler answers. *)
Inductive Resolution := Replace | Revert | Fail.

(** tag::save-conflict-handler: the three handlers. *)
Definition use_mine (mine : Task) (theirs : option Task) : Resolution := Replace.
Definition discard_mine (mine : Task) (theirs : option Task) : Resolution := Revert.
Definition abort (mine : Task) (theirs : option Task) : Resolution := Fail.


End SaveConflict.

(** ** code_snippets.js: helper of the query snippets *)

Module Helpers.

(** Milliseconds in a day, [1000 * 60 * 60 * 24]. *)
Definition day : Z := 1000 * 60 * 60 * 24.

(** [function calculateDaysOld(date)].  [parse] is the platform's reading
    of a date string ([None]: an invalid date, whose time is [NaN]) and
    [now] the time of [new Date()]; the value [None] is [NaN]. *)
Definition calculateDaysOld (parse : string -> option Z) (now : Z) (date : string)
    : option Z :=
  match parse date with
  | Some created => Some ((now - created) / day)%Z
  | None => None
  end.

End Helpers.

(** ** queries.ts: paging a live query *)

Module Pagination.

Definition pageSize : Z := 20.

(** The value assigned to [query.parameters]. *)
Record Parameters := {
  limit : Z;
  offset : Z
}.

(** [let currentPage] and the parameters of the query, none before the
    first assignment. *)
Record Pager := {
  currentPage : Z;
  parameters : option Parameters
}.

(** The variables when [updatePage] is declared. *)
Definition declared : Pager := {| currentPage := 0; parameters := None |}.

(** [function updatePage(page)]. *)
Definition updatePage (page : Z) (st : Pager) : Pager :=
  {| currentPage := page;
     parameters := Some {| limit := pageSize; offset := page * pageSize |} |}.

(** [function nextPage()]. *)
Definition nextPage (st : Pager) : Pager := updatePage (currentPage st + 1) st.

(** [function previousPage()]. *)
Definition previousPage (st : Pager) : Pager :=
  updatePage (Z.max 0 (currentPage st - 1)) st.

(** What the user does after the snippet has set the initial page. *)
Inductive Move := Next | Previous.

#[global] Instance Move_eq_dec : EqDecision Move.
Proof. solve_decision. Defined.

Definition move (m : Move) (st : Pager) : Pager :=
  match m with
  | Next => nextPage st
  | Previous => previousPage st
  end.

(** The snippet: [updatePage(0)], then the moves in order. *)
Definition navigate (ms : list Move) : Pager :=
  fold_left (fun st m => move m st) ms (updatePage 0 declared).

End Pagination.

(** ** queries.ts: the two listeners of tag::live-query-performance *)

Module Performance.
Import JS Data.

(** The callbacks the window holds until they run: the timers set by
    [setTimeout], by id, and the requests of [requestAnimationFrame],
    oldest first.  A callback of this snippet is [updateUI(results)] for
    the results it closes over.  [console] is what has been logged. *)
Record Window := {
  timers : gmap nat (list Row);
  next_timer : nat;
  frames : list (list Row);
  console : list ConsoleCall
}.

(** [let updateTimeout] ([None]: not assigned yet) and [let isUpdating]. *)
Record Vars := {
  updateTimeout : option nat;
  isUpdating : bool
}.

(** The snippet's variables and an empty window. *)
Definition declared : Vars * Window :=
  ({| updateTimeout := None; isUpdating := false |},
   {| timers := ∅; next_timer := 0; frames := []; console := [] |}).

(** [function updateUI(results)] of queries.ts. *)
Definition updateUI (results : list Row) (w : Window) : Window :=
  {| timers := timers w; next_timer := next_timer w; frames := frames w;
     console := console w ++
       [{| level := LevelLog; text := "Updating UI with results:";
           arg := Some (JSNumber (Z.of_nat (List.length results))) |}] |}.

(** [clearTimeout(id)]: nothing happens for [undefined] or for a timer
    that has run. *)
Definition clearTimeout (id : option nat) (w : Window) : Window :=
  match id with
  | Some i =>
    {| timers := delete i (timers w); next_timer := next_timer w;
       frames := frames w; console := console w |}
  | None => w
  end.

(** [setTimeout(() => updateUI(results), ms)]: the id of the new timer. *)
Definition setTimeout (results : list Row) (w : Window) : nat * Window :=
  (next_timer w,
   {| timers := <[next_timer w := results]> (timers w);
      next_timer := S (next_timer w);
      frames := frames w; console := console w |}).

(** The first listener: debouncing. *)
Definition debounced (results : list Row) (s : Vars * Window) : Vars * Window :=
  let '(v, w) := s in
  let w := clearTimeout (updateTimeout v) w in
  let '(id, w) := setTimeout results w in
  ({| updateTimeout := Some id; isUpdating := isUpdating v |}, w).

(** The timer [id] runs, if it is still set. *)
Definition timer_fires (id : nat) (s : Vars * Window) : Vars * Window :=
  let '(v, w) := s in
  match timers w !! id with
  | Some results =>
    (v, updateUI results
          {| timers := delete id (timers w); next_timer := next_timer w;
             frames := frames w; console := console w |})
  | None => s
  end.

(** The second listener: one update per animation frame. *)
Definition batched (results : list Row) (s : Vars * Window) : Vars * Window :=
  let '(v, w) := s in
  if isUpdating v then s
  else
    ({| updateTimeout := updateTimeout v; isUpdating := true |},
     {| timers := timers w; next_timer := next_timer w;
        frames := frames w ++ [results]; console := console w |}).

(** The next animation frame: the requested callbacks run, oldest first;
    each updates the page and resets [isUpdating]. *)
Definition animation_frame (s : Vars * Window) : Vars * Window :=
  let '(v, w) := s in
  fold_left
    (fun '(v, w) results =>
       ({| updateTimeout := updateTimeout v; isUpdating := false |},
        updateUI results w))
    (frames w)
    (v, {| timers := timers w; next_timer := next_timer w;
           frames := []; console := console w |}).

(** What happens after the two listeners are registered: the query
    notifies its listeners, in the order they were added; a timer runs;
    the window paints a frame. *)
Inductive Event :=
  | Notified (results : list Row)
  | TimerFired (id : nat)
  | AnimationFrame.

Definition step (s : Vars * Window) (e : Event) : Vars * Window :=
  match e with
  | Notified results => batched results (debounced results s)
  | TimerFired id => timer_fires id s
  | AnimationFrame => animation_frame s
  end.

Definition run (es : list Event) (s : Vars * Window) : Vars * Window :=
  fold_left step es s.

End Performance.

(** ** code_snippets.js: the replacer of tag::json-circular-reference *)

Module Serialization.
Import JS.

(** A value as [JSON.stringify] hands it to a replacer: a primitive, or
    an object or array, which is known by its identity. *)
Inductive Visited :=
  | Primitive (v : JSValue)
  | Reference (object : nat).

#[global] Instance Visited_eq_dec : EqDecision Visited.
Proof. solve_decision. Defined.

(** The replacer [(_, value) => ...]: what it returns, and [seen]
    afterwards.  [typeof value === 'object' && value !== null] holds of
    objects and arrays. *)
Definition replacer (value : Visited) (seen : gset nat) : Visited * gset nat :=
  match value with
  | Reference key =>
    if bool_decide (key ∈ seen) then (Primitive (JSString "[Circular]"), seen)
    else (value, {[key]} ∪ seen)
  | Primitive _ => (value, seen)
  end.

(** The replacer called on the values of one [JSON.stringify], in the
    order they are visited, with [seen] new: what it returns for each. *)
Fixpoint replace_all (values : list Visited) (seen : gset nat) : list Visited :=
  match values with
  | [] => []
  | value :: rest =>
    let '(written, seen) := replacer value seen in
    written :: replace_all rest seen
  end.

End Serialization.

(** ** queries.ts: tag::live-query-conditional, [class SmartQueryManager] *)

Module Conditional.
Import JS Data Sdk.

(** The private fields; [None] is [null]. *)
Record SmartQueryManager := {
  token : option Value;
  query : Value
}.

(** [constructor()]. *)
Definition new_SmartQueryManager : M SmartQueryManager :=
  database ← var "database";
  q ← createQuery database "SELECT * FROM tasks WHERE completed = false";
  mret {| token := None; query := q |}.

(** [startListening()]. *)
Definition startListening (this : SmartQueryManager) : M SmartQueryManager :=
  match token this with
  | None =>
    t ← addChangeListener (query this);
    let this := {| token := Some t; query := query this |} in
    log "Started listening";;
    mret this
  | Some _ => mret this
  end.

(** [stopListening()]. *)
Definition stopListening (this : SmartQueryManager) : M SmartQueryManager :=
  match token this with
  | Some t =>
    remove t;;
    let this := {| token := None; query := query this |} in
    log "Stopped listening";;
    mret this
  | None => mret this
  end.

(** [handleVisibilityChange()]; [hidden] is [document.hidden]. *)
Definition handleVisibilityChange (hidden : bool) (this : SmartQueryManager)
    : M SmartQueryManager :=
  if hidden then stopListening this else startListening this.

(** [handleResults(results)]. *)
Definition handleResults (results : list Row) : M unit :=
  log_with "Results updated:" (JSNumber (Z.of_nat (List.length results))).

(** The usage lines; [hidden] is [document.hidden] when they run.  The
    handler of [visibilitychange] is installed on the page. *)
Definition live_query_conditional (hidden : bool) : M SmartQueryManager :=
  manager ← new_SmartQueryManager;
  if negb hidden then startListening manager else mret manager.

(** The public methods, for running sequences of calls on one object. *)
Inductive Method :=
  | CallStartListening
  | CallStopListening
  | CallHandleVisibilityChange (hidden : bool).

Definition call (m : Method) (this : SmartQueryManager) : M SmartQueryManager :=
  match m with
  | CallStartListening => startListening this
  | CallStopListening => stopListening this
  | CallHandleVisibilityChange hidden => handleVisibilityChange hidden this
  end.

Fixpoint calls (ms : list Method) (this : SmartQueryManager) : M SmartQueryManager :=
  match ms with
  | [] => mret this
  | m :: ms' => this' ← call m this; calls ms' this'
  end.

End Conditional.

(** ** queries.ts: tag::live-query-vue, [function useLiveQuery] *)

Module Vue.
Import JS Data Sdk.

(** [const setupQuery = () => ...]; the argument and the value are
    [let token] before and after ([None]: [null]). *)
Definition setupQuery (queryString : string) (token : option Value)
    : M (option Value) :=
  match token with
  | Some t => remove t
  | None => mret tt
  end;;
  database ← var "database";
  query ← createQuery database queryString;
  set_parameters query;;
  t ← addChangeListener query;
  mret (Some t).

(** The callback given to [onUnmounted]: [token] stays as it is. *)
Definition unmounted (token : option Value) : M (option Value) :=
  match token with
  | Some t => remove t
  | None => mret tt
  end;;
  mret token.

(** What the framework calls: the callbacks given to [onMounted], to
    [watch] and to [onUnmounted]. *)
Inductive Hook := Mounted | ParamsChanged | Unmounted.

Definition hook (queryString : string) (h : Hook) (token : option Value)
    : M (option Value) :=
  match h with
  | Mounted | ParamsChanged => setupQuery queryString token
  | Unmounted => unmounted token
  end.

Fixpoint hooks (queryString : string) (hs : list Hook) (token : option Value)
    : M (option Value) :=
  match hs with
  | [] => mret token
  | h :: hs' => token' ← hook queryString h token; hooks queryString hs' token'
  end.

End Vue.

(** ** tag::error-handling in the TypeScript copy of the replication
    snippets, the type-checked variant *)

Module TypeChecked.
Import JS Replication.

(** The [switch (error.code)] of the variant: no case for 408 and 429. *)
Definition switch_code (c : JSValue) : list ConsoleCall :=
  if strict_eq c (JSNumber 401) then
    [console_error "Unauthorized - check credentials"]
  else if strict_eq c (JSNumber 404) then
    [console_error "Database not found on server"]
  else if strict_eq c (JSNumber 500) || strict_eq c (JSNumber 502)
          || strict_eq c (JSNumber 503) || strict_eq c (JSNumber 504) then
    [console_log "Server error"]
  else if strict_eq c (JSNumber 1001) then
    [console_log "Web Socket hung up"]
  else
    [console_error_with "Unexpected error code:" c].

(** [replicator.onStatusChange] of the variant: the switch is not
    guarded, and the status is not looked at. *)
Definition onStatusChange (st : ReplicatorStatus) : list ConsoleCall :=
  match error st with
  | None => []
  | Some err =>
    console_error_with "Replication error:" (JSString (message err))
    :: switch_code (code err)
  end.

End TypeChecked.

(** ** code_snippets.js: two ways to collect the completed tasks *)

Module Results.
Import JS Data.

(** tag::collect-all-results, [allResults.filter(row => row.tasks.completed)];
    [None] is the [TypeError] of a row without [tasks]. *)
Fixpoint completedTasks (allResults : list Row) : option (list Row) :=
  match allResults with
  | [] => Some []
  | row :: rest =>
    match tasks row with
    | Some task =>
      kept ← completedTasks rest;
      Some (if truthy (completed task) then row :: kept else kept)
    | None => None
    end
  end.

(** tag::callback-results: the callback given to [query.execute], on one
    row, with the array [completed] before and after. *)
Definition callback (row : Row) (completed : list Document) : option (list Document) :=
  match tasks row with
  | Some task =>
    if truthy (Data.completed task) then Some (completed ++ [task]) else Some completed
  | None => None
  end.

(** [query.execute(callback)]: the callback is called on each row in
    order. *)
Fixpoint execute_each (rows : list Row) (completed : list Document)
    : option (list Document) :=
  match rows with
  | [] => Some completed
  | row :: rest =>
    completed' ← callback row completed;
    execute_each rest completed'
  end.

End Results.

(** ** code_snippets.js: tag::document-expiration-date *)

Module Expiration.
Import JS.

(** What the snippet reports about a document that has an expiration. *)
Inductive Report :=
  | Expired
  | ExpiresIn (daysUntilExpiration : Z).

(** The lines under [if (expiration)], with [now] and [expiration] the
    times of the two dates; [Math.ceil(x / d)] is [- ((- x) / d)]. *)
Definition check_expiration (now expiration : Z) : Report :=
  if (now >? expiration)%Z then Expired
  else ExpiresIn (- ((- (expiration - now)) / Helpers.day))%Z.

(** The line logged for a report. *)
Definition line (r : Report) : ConsoleCall :=
  match r with
  | Expired => console_log "Document has expired and will be purged"
  | ExpiresIn days => console_log ("Document expires in " +:+ pretty days +:+ " days")
  end.

End Expiration.

(** ** code_snippets.js: the change listener of tag::live-query *)

Module LiveQueryListener.
Import JS Data Dom.

(** [results.forEach(row => ...)]: the lines logged, and how the loop
    ends; [task.title] throws on a row without [tasks]. *)
Fixpoint log_tasks (results : list Row) : list ConsoleCall * Outcome :=
  match results with
  | [] => ([], Returned)
  | row :: rest =>
    match tasks row with
    | Some task =>
      let '(lines, outcome) := log_tasks rest in
      (console_log ("Task: " +:+ title task) :: lines, outcome)
    | None => ([], ThrewTypeError)
    end
  end.

(** The listener given to [query.addChangeListener]: what it logs, the
    page afterwards, and how it ends.  [updateTaskList] is the helper of
    the file. *)
Definition listener (results : list Row) (page : Node)
    : list ConsoleCall * (Node * Outcome) :=
  let heading :=
    console_log ("Query results updated: " +:+ pretty (List.length results)
                 +:+ " tasks") in
  match log_tasks results with
  | (lines, Returned) => (heading :: lines, updateTaskList results page)
  | (lines, ThrewTypeError) => (heading :: lines, (page, ThrewTypeError))
  end.

End LiveQueryListener.

(** ** Invariants of the classes and listeners *)

Module Invariants.
Import JS Data Sdk Run Properties.

(** A mutation of the page that leaves an element its tag and id. *)
Definition keeps_element (h : Dom.Node -> Dom.Node) : Prop :=
  forall t j cs, exists cs', h (Dom.Element t j cs) = Dom.Element t j cs'.

(** What the two listeners of tag::live-query-performance keep true: the
    only timer that can be set is the one [updateTimeout] names, and a
    frame is requested exactly while [isUpdating] is set, and then only
    one. *)
Definition steady (s : Performance.Vars * Performance.Window) : Prop :=
  (forall i r, Performance.timers (snd s) !! i = Some r ->
               Performance.updateTimeout (fst s) = Some i)
  /\ ((Performance.isUpdating (fst s) = false /\ Performance.frames (snd s) = [])
      \/ (Performance.isUpdating (fst s) = true
          /\ exists r, Performance.frames (snd s) = [r])).

(** Whether a [SmartQueryManager] is listening after the calls [ms],
    given whether it was before. *)
Fixpoint smart_listening_after (ms : list Conditional.Method) (before : bool) : bool :=
  match ms with
  | [] => before
  | Conditional.CallStartListening :: ms' => smart_listening_after ms' true
  | Conditional.CallStopListening :: ms' => smart_listening_after ms' false
  | Conditional.CallHandleVisibilityChange hidden :: ms' =>
    smart_listening_after ms' (negb hidden)
  end.

(** The listener a token stands for, if it is a token. *)
Definition listener_of (token : option Value) : gset nat :=
  match token with
  | Some (VToken t) => {[t]}
  | _ => ∅
  end.

(** What the methods of [SmartQueryManager] keep true, with [others] the
    listeners registered by the rest of the application: the manager's
    query is a query, and its listener is registered exactly while it
    holds the token. *)
Definition owns (this : Conditional.SmartQueryManager) (others : gset nat)
    (s : State) : Prop :=
  tokens_fresh s
  /\ (exists sql, Conditional.query this = VQuery sql)
  /\ match Conditional.token this with
     | Some tok => exists t, tok = VToken t /\ t ∉ others
     | None => True
     end
  /\ listeners s = listener_of (Conditional.token this) ∪ others.

(** Whether the component of [useLiveQuery] is listening after the hooks
    [hs], given whether it was before. *)
Fixpoint mounted_after (hs : list Vue.Hook) (before : bool) : bool :=
  match hs with
  | [] => before
  | Vue.Unmounted :: hs' => mounted_after hs' false
  | _ :: hs' => mounted_after hs' true
  end.

(** What the callbacks of [useLiveQuery] keep true, with [others] the
    listeners of the rest of the application: [database] is a database,
    and the listener of the token is registered exactly while the
    component is [mounted]. *)
Definition watching (token : option Value) (mounted : bool) (others : gset nat)
    (s : State) : Prop :=
  tokens_fresh s
  /\ (exists name, scope s !! "database" = Some (VDatabase name))
  /\ match token with
     | Some tok => exists t, tok = VToken t /\ t ∉ others
     | None => mounted = false
     end
  /\ listeners s = (if mounted then listener_of token else ∅) ∪ others.

(** [setupQueries()] called [n] times on one [LiveQueryComponent]. *)
Fixpoint setupQueries_times (n : nat) (tokens : list Value) : M (list Value) :=
  match n with
  | O => mret tokens
  | S n' => tokens' ← Queries.setupQueries tokens; setupQueries_times n' tokens'
  end.

(** What [setupQueries] keeps true of the field [tokens], with [others]
    the listeners of the rest of the application: the tokens are distinct,
    and their listeners are the ones registered besides [others]. *)
Definition tracked (tokens : list Value) (others : gset nat) (s : State) : Prop :=
  tokens_fresh s
  /\ (exists name, scope s !! "database" = Some (VDatabase name))
  /\ exists ts : list nat,
      tokens = VToken <$> ts
      /\ NoDup ts
      /\ (forall t, t ∈ ts -> t ∉ others)
      /\ listeners s = list_to_set ts ∪ others.

End Invariants.

(** ** More data for the examples *)

Module MoreExamples.
Import JS Data Sdk Run.



(** The application after the first statement of a block of queries.ts. *)
Definition opened : State := Examples.after [Queries.open_mydb] Run.empty.

(** An application with two tasks, after open-database and create-query. *)
Definition queried : State :=
  Examples.after [CodeSnippets.open_database; CodeSnippets.create_query]
    (Run.initial ∅ (fun _ => Examples.sample_rows) []).

(** A replicator that stopped on an error, after pulling three revisions. *)
Definition unauthorized : Replication.ReplicatorError :=
  {| Replication.message := "Unauthorized"; Replication.code := JSNumber 401 |}.
Definition stopped_on_error : ReplicationStatus.Status :=
  {| ReplicationStatus.status := "stopped";
     ReplicationStatus.pulledRevisions := Some 3%Z;
     ReplicationStatus.pushedRevisions := None;
     ReplicationStatus.error := Some unauthorized |}.

(** Three replicated documents: one fine, one deleted, one deleted and in
    error. *)
Definition failed_document : DocumentReplication.ReplicatedDocument :=
  {| DocumentReplication.id := "task-3"; DocumentReplication.error := Some unauthorized;
     DocumentReplication.flags := Some {| deleted := JSBoolean true |} |}.
Definition replicated : list DocumentReplication.ReplicatedDocument :=
  [ {| DocumentReplication.id := "task-1"; DocumentReplication.error := None;
       DocumentReplication.flags := None |};
    {| DocumentReplication.id := "task-2"; DocumentReplication.error := None;
       DocumentReplication.flags := Some {| deleted := JSBoolean true |} |};
    failed_document ].

(** Two revisions of a document as objects. *)
Definition local_revision : AdvancedConfig.Object :=
  {[ "title" := JSString "Write report"; "priority" := JSNumber 1 ]}.
Definition remote_revision : AdvancedConfig.Object :=
  {[ "title" := JSString "Write the report"; "completed" := JSBoolean true ]}.

(** A manager that is listening, in the application it was made in. *)
Definition listening_smart_manager : Conditional.SmartQueryManager :=
  {| Conditional.token := Some (VToken 1);
     Conditional.query := VQuery "SELECT * FROM tasks WHERE completed = false" |}.

End MoreExamples.

(** * Theorems *)

Import JS Data Replication Run Examples Properties.

(** ** The conflict resolver and the filters *)

Lemma num_or_zero (x : option Z) : num_or x 0 = default 0%Z x.
Proof.
  destruct x as [n|]; simpl; [|reflexivity].
  destruct (Z.eqb_spec n 0); congruence.
Qed.

Lemma conflictResolver_by_timestamp documentID local remote :
  conflictResolver documentID local remote =
    match local, remote with
    | None, _ => remote
    | Some _, None => local
    | Some l, Some r =>
      if (timestamp r >? timestamp l)%Z then remote else local
    end.
Proof.
  destruct local as [l|], remote as [r|]; simpl; try reflexivity.
  unfold timestamp. now rewrite !num_or_zero.
Qed.

(** C3. The custom pull conflict resolver returns remote when local is
    absent, otherwise local when remote is absent, otherwise remote exactly
    when remote's updatedAt (0 when missing) is strictly greater than
    local's, and local otherwise; so it always returns one of its two
    inputs, and local on equal timestamps. *)
Theorem conflictResolver_selects_by_timestamp :
  forall (documentID : string) (local remote : option Document),
    conflictResolver documentID local remote =
      match local, remote with
      | None, _ => remote
      | Some _, None => local
      | Some l, Some r =>
        if (timestamp r >? timestamp l)%Z then remote else local
      end
    /\ (conflictResolver documentID local remote = local
        \/ conflictResolver documentID local remote = remote)
    /\ (forall l r, local = Some l -> remote = Some r ->
        timestamp r = timestamp l ->
        conflictResolver documentID local remote = local).
Proof.
  intros documentID local remote.
  pose proof (conflictResolver_by_timestamp documentID local remote) as E.
  split; [exact E|]. split.
  - rewrite E. destruct local as [l|], remote as [r|]; auto.
    destruct (timestamp r >? timestamp l)%Z; auto.
  - intros l r -> -> Heq. rewrite E, Heq.
    now rewrite Z.gtb_ltb, Z.ltb_irrefl.
Qed.



(** C1, refuted as stated: the conflict resolver does not hand back a
    fixed side, and the push filter's verdict changes with the document. *)
Lemma resolver_and_filter_not_call_through :
  ~ forwards_one_side (conflictResolver "task-1")
  /\ ~ call_through (fun doc => push_filter doc not_deleted).
Proof.
  split.
  - intros [H | H].
    + specialize (H (Some older) (Some newer)). vm_compute in H. discriminate.
    + specialize (H (Some newer) (Some older)). vm_compute in H. discriminate.
  - intros H. specialize (H older newer). vm_compute in H. discriminate.
Qed.

(** C1, amended: the repository does define functions with logic of
    their own.  The custom conflict resolver chooses between two present
    documents by a comparison of their two timestamps, the push filter
    decides from flags.deleted and doc.completed, the pull filter from
    flags.deleted and doc.assignedTo, and each of the three choices
    changes with the data. *)
Theorem resolver_and_filters_decide_from_document_data :
  (exists choose : Z -> Z -> bool,
      (forall documentID l r,
          conflictResolver documentID (Some l) (Some r) =
          Some (if choose (timestamp l) (timestamp r) then r else l))
      /\ choose 1%Z 2%Z <> choose 2%Z 1%Z)
  /\ (exists verdict : JSValue -> JSValue -> bool,
      (forall doc flags,
          push_filter doc flags = verdict (deleted flags) (completed doc))
      /\ verdict (JSBoolean false) (JSBoolean true)
         <> verdict (JSBoolean false) (JSBoolean false))
  /\ (exists verdict : JSValue -> JSValue -> bool,
      (forall doc flags,
          pull_filter doc flags = verdict (deleted flags) (assignedTo doc))
      /\ verdict (JSBoolean false) (JSString "currentUser@example.com")
         <> verdict (JSBoolean false) JSUndefined).
Proof.
  split; [|split].
  - exists (fun tl tr => (tr >? tl)%Z). split; [|discriminate].
    intros documentID l r.
    rewrite conflictResolver_by_timestamp.
    now destruct (timestamp r >? timestamp l)%Z.
  - exists (fun del c => if truthy del then false else strict_eq c (JSBoolean true)).
    split; [reflexivity | discriminate].
  - exists (fun del a =>
      if truthy del then false
      else strict_eq a (JSString "currentUser@example.com")).
    split; [reflexivity | discriminate].
Qed.

(** ** The replicator status handler *)




(** ** [updateTaskList] and the page *)

Import Dom.

(** Induction on nodes, with the hypothesis for every child. *)
Fixpoint Node_ind (P : Node -> Prop)
    (HText : forall s, P (Text s))
    (HElement : forall t j cs, Forall P cs -> P (Element t j cs))
    (n : Node) : P n :=
  match n with
  | Text s => HText s
  | Element t j cs =>
    HElement t j cs
      ((fix all (cs : list Node) : Forall P cs :=
          match cs with
          | [] => @List.Forall_nil Node P
          | c :: cs' =>
            @List.Forall_cons Node P c cs' (Node_ind P HText HElement c) (all cs')
          end) cs)
  end.

Lemma getElementById_Element i t j cs :
  getElementById i (Element t j cs) =
  if String.eqb j i then Some [] else first_in i 0 cs.
Proof.
  simpl. destruct (String.eqb j i); [reflexivity|].
  generalize 0%nat. induction cs as [|c cs IH]; intros k; simpl; [reflexivity|].
  destruct (getElementById i c); [reflexivity | apply IH].
Qed.

Lemma first_in_Some i k cs p :
  first_in i k cs = Some p ->
  exists k' p' c, p = (k + k')%nat :: p' /\ cs !! k' = Some c
                  /\ getElementById i c = Some p'.
Proof.
  revert k. induction cs as [|c cs IH]; intros k; simpl; [discriminate|].
  destruct (getElementById i c) as [p'|] eqn:E.
  - intros [= <-]. exists 0%nat, p', c. rewrite Nat.add_0_r. auto.
  - intros H. destruct (IH _ H) as (k' & p' & c' & -> & Hc & Hp).
    exists (S k'), p', c'. split; [f_equal; lia | auto].
Qed.

(** What [getElementById] returns is the place of an element with that id. *)
Lemma getElementById_node_at i n :
  forall p, getElementById i n = Some p ->
  exists t cs, node_at p n = Some (Element t i cs).
Proof.
  induction n as [s | t j cs IH] using Node_ind; intros p; [discriminate|].
  rewrite getElementById_Element.
  destruct (String.eqb_spec j i) as [-> | _].
  - intros [= <-]. simpl. eauto.
  - intros H. destruct (first_in_Some _ _ _ _ H) as (k & p' & c & -> & Hc & Hp).
    simpl. rewrite Hc.
    rewrite Forall_forall in IH. apply (IH c); [|exact Hp].
    apply list_elem_of_lookup. eauto.
Qed.

Lemma update_at_compose p f g n :
  update_at p g (update_at p f n) = update_at p (g ∘ f) n.
Proof.
  revert n. induction p as [|k p IH]; intros n; [reflexivity|].
  destruct n as [s | t j cs]; simpl; [reflexivity|].
  rewrite list_alter_alter_eq. f_equal.
  apply list_alter_ext; [|reflexivity]. intros c _. apply IH.
Qed.

Lemma update_at_ext p f g n m :
  node_at p n = Some m -> f m = g m -> update_at p f n = update_at p g n.
Proof.
  revert n. induction p as [|k p IH]; intros n; simpl.
  - intros [= ->]. auto.
  - destruct n as [s | t j cs]; [discriminate|].
    destruct (cs !! k) as [c|] eqn:E; [|discriminate].
    intros Hm Hfg. f_equal. apply list_alter_ext; [|reflexivity].
    intros c' Hc'. rewrite E in Hc'. injection Hc' as <-. now apply IH.
Qed.

Lemma node_at_update_at p f n m :
  node_at p n = Some m -> node_at p (update_at p f n) = Some (f m).
Proof.
  revert n. induction p as [|k p IH]; intros n; simpl.
  - now intros [= ->].
  - destruct n as [s | t j cs]; [discriminate|].
    destruct (cs !! k) as [c|] eqn:E; [|discriminate].
    intros Hm. simpl. rewrite list_lookup_alter_eq, E. simpl. now apply IH.
Qed.

(** A node that is neither in the subtree at [p] nor above it is not
    touched by an update at [p]. *)
Lemma node_at_update_at_elsewhere p q f n :
  ~ p `prefix_of` q -> ~ q `prefix_of` p ->
  node_at q (update_at p f n) = node_at q n.
Proof.
  revert q n. induction p as [|k p IH]; intros q n Hpq Hqp.
  - destruct Hpq. apply prefix_nil.
  - destruct q as [|k' q]; [destruct Hqp; apply prefix_nil|].
    destruct n as [s | t j cs]; [reflexivity|]. simpl.
    destruct (decide (k = k')) as [<- | Hne].
    + rewrite list_lookup_alter_eq. destruct (cs !! k) as [c|]; [|reflexivity].
      simpl. apply IH; intros H; [apply Hpq | apply Hqp]; now apply prefix_cons.
    + now rewrite list_lookup_alter_ne.
Qed.

(** A node above [p] keeps its tag, its id and its number of children. *)
Lemma node_at_update_at_above q r f n t j cs :
  r <> [] ->
  node_at q n = Some (Element t j cs) ->
  exists cs', node_at q (update_at (q ++ r) f n) = Some (Element t j cs')
              /\ List.length cs' = List.length cs.
Proof.
  intros Hr. revert n. induction q as [|k q IH]; intros n; simpl.
  - intros [= ->]. destruct r as [|k r]; [contradiction|]. simpl.
    eexists; split; [reflexivity | apply length_alter].
  - destruct n as [s | t' j' cs0]; [discriminate|].
    destruct (cs0 !! k) as [c|] eqn:E; [|discriminate].
    intros H. simpl. rewrite list_lookup_alter_eq, E. simpl. now apply IH.
Qed.

Lemma append_rows_all taskList results f page ts :
  tasks <$> results = Some <$> ts ->
  append_rows taskList results (update_at taskList f page) =
  (update_at taskList
     (fun e => fold_left (fun e t => appendChild (list_item (title t)) e) ts (f e))
     page, Returned).
Proof.
  revert f ts. induction results as [|row rest IH]; intros f ts H.
  - destruct ts; [reflexivity | discriminate].
  - destruct ts as [|t ts]; [discriminate|]. simpl in H.
    injection H as Hrow Hrest. simpl. rewrite Hrow.
    rewrite update_at_compose. apply (IH _ ts Hrest).
Qed.

Lemma fold_appendChild ts t j cs :
  fold_left (fun e t => appendChild (list_item (title t)) e) ts (Element t j cs) =
  Element t j (cs ++ ((fun t => list_item (title t)) <$> ts)).
Proof.
  revert cs. induction ts as [|x ts IH]; intros cs; simpl.
  - now rewrite app_nil_r.
  - rewrite IH, <- app_assoc. reflexivity.
Qed.

Lemma append_empty_r (s : string) : s +:+ "" = s.
Proof.
  induction s as [|a s IH]; [reflexivity|].
  change (String a (s +:+ "") = String a s). now rewrite IH.
Qed.

Lemma textContent_list_item s : textContent (list_item s) = s.
Proof.
  unfold list_item, set_textContent, createElement. simpl.
  destruct (String.eqb_spec s "") as [-> | _]; simpl; [reflexivity|].
  apply append_empty_r.
Qed.

(** C10. Without an element with id task-list, updateTaskList leaves the
    page as it is.  With one, and rows that each carry a tasks document,
    the element's children become one list item per row, in order, with
    the task's title as text; the element keeps its tag and id, every node
    outside its subtree is unchanged, and each node above it keeps its
    tag, id and number of children. *)
Theorem updateTaskList_replaces_task_list :
  forall (results : list Row) (page : Node),
    (getElementById "task-list" page = None ->
     updateTaskList results page = (page, Returned))
    /\ (forall (taskList : Path) (ts : list Document),
        getElementById "task-list" page = Some taskList ->
        tasks <$> results = Some <$> ts ->
        exists t old items page',
          node_at taskList page = Some (Element t "task-list" old)
          /\ updateTaskList results page = (page', Returned)
          /\ node_at taskList page' = Some (Element t "task-list" items)
          /\ items = (fun task => list_item (title task)) <$> ts
          /\ textContent <$> items = title <$> ts
          /\ (forall q, ~ taskList `prefix_of` q -> ~ q `prefix_of` taskList ->
              node_at q page' = node_at q page)
          /\ (forall q r t' j cs, taskList = q ++ r -> r <> [] ->
              node_at q page = Some (Element t' j cs) ->
              exists cs', node_at q page' = Some (Element t' j cs')
                          /\ List.length cs' = List.length cs)).
Proof.
  intros results page. unfold updateTaskList. split.
  - intros ->. reflexivity.
  - intros taskList ts Hfind Hrows. rewrite Hfind.
    destruct (getElementById_node_at _ _ _ Hfind) as (t & old & Hat).
    rewrite (append_rows_all _ _ _ _ ts Hrows).
    set (items := (fun task => list_item (title task)) <$> ts).
    exists t, old, items.
    eexists. split; [exact Hat|]. split; [reflexivity|].
    split; [|split; [reflexivity|split; [|split]]].
    + rewrite (node_at_update_at _ _ _ _ Hat). simpl.
      now rewrite fold_appendChild.
    + subst items. rewrite <- list_fmap_compose. apply list_fmap_ext.
      intros i task _. apply textContent_list_item.
    + intros q Hpq Hqp. now apply node_at_update_at_elsewhere.
    + intros q r t' j cs -> Hr Hq. now apply node_at_update_at_above.
Qed.

Lemma updateTaskList_replaces_task_list_witness :
  updateTaskList sample_rows (Element "body" "" []) = (Element "body" "" [], Returned)
  /\ exists t old items page',
      node_at [1%nat] sample_page = Some (Element t "task-list" old)
      /\ updateTaskList sample_rows sample_page = (page', Returned)
      /\ node_at [1%nat] page' = Some (Element t "task-list" items)
      /\ items = (fun task => list_item (title task)) <$> [older; newer]
      /\ textContent <$> items = title <$> [older; newer]
      /\ (forall q, ~ [1%nat] `prefix_of` q -> ~ q `prefix_of` [1%nat] ->
          node_at q page' = node_at q sample_page)
      /\ (forall q r t' j cs, [1%nat] = q ++ r -> r <> [] ->
          node_at q sample_page = Some (Element t' j cs) ->
          exists cs', node_at q page' = Some (Element t' j cs')
                      /\ List.length cs' = List.length cs).
Proof.
  split.
  - apply (proj1 (updateTaskList_replaces_task_list sample_rows (Element "body" "" []))).
    reflexivity.
  - apply (proj2 (updateTaskList_replaces_task_list sample_rows sample_page)
             [1%nat] [older; newer]); reflexivity.
Defined.

(** A row without [tasks] makes the loop throw where it stands: the list
    has been emptied and holds the items of the rows before it. *)
Lemma updateTaskList_row_without_tasks :
  let row := {| tasks := None; column_title := Some "Report"; attachment := None |} in
  updateTaskList (sample_rows ++ [row]) sample_page =
  (Element "body" ""
     [Element "h1" "" [Text "Tasks"];
      Element "ul" "task-list" [list_item "Write report"; list_item "Write report"]],
   ThrewTypeError).
Proof. reflexivity. Qed.

(** ** The events of a run *)

Import Sdk.

Lemma events_app {A} (m : M A) s evs :
  trace (fst (m s)) = trace s ++ evs -> events m s = evs.
Proof. intros H. unfold events. rewrite H. apply drop_app_length. Qed.

Lemma awaits_each_promise_app a b :
  awaits_each_promise a = true -> awaits_each_promise b = true ->
  awaits_each_promise (a ++ b) = true.
Proof.
  intros Ha Hb.
  assert (G : forall n a, (List.length a <= n)%nat ->
            awaits_each_promise a = true -> awaits_each_promise (a ++ b) = true).
  { clear a Ha. induction n as [|n IH]; intros a Hn Ha.
    - destruct a; [exact Hb | simpl in Hn; lia].
    - destruct a as [|e a]; [exact Hb|]. simpl in Hn.
      destruct e as [api [p|] | q | c | ms]; simpl in *;
        try (apply IH; [lia | assumption]).
      destruct a as [|[| q | |] a]; try discriminate. simpl in *.
      apply andb_true_iff in Ha as [-> Ha]. simpl. apply IH; [lia | assumption]. }
  now apply (G (List.length a)).
Qed.

(** Rules for [emits], for a property of events that holds of no events
    and is kept by concatenation. *)
Section Emits.
Context (P : list Event -> Prop).
Hypothesis P_nil : P [].
Hypothesis P_app : forall a b, P a -> P b -> P (a ++ b).

Lemma emits_silent {A} (m : M A) :
  (forall s, trace (fst (m s)) = trace s) -> emits P m.
Proof. intros H s. exists []. rewrite H, app_nil_r. auto. Qed.

Lemma emits_ret {A} (a : A) : emits P (mret a).
Proof. now apply emits_silent. Qed.

Lemma emits_throw {A} e : emits P (@throw A e).
Proof. now apply emits_silent. Qed.

Lemma emits_var x : emits P (var x).
Proof. apply emits_silent. intros s. unfold var. now destruct (scope s !! x). Qed.

Lemma emits_const x v : emits P (const x v).
Proof. now apply emits_silent. Qed.

Lemma emits_get {A} (f : State -> A) : emits P (get f).
Proof. now apply emits_silent. Qed.

Lemma emits_emit e : P [e] -> emits P (emit e).
Proof. intros H s. exists [e]. auto. Qed.

Lemma emits_bind {A B} (m : M A) (k : A -> M B) :
  emits P m -> (forall a, emits P (k a)) -> emits P (m ≫= k).
Proof.
  intros Hm Hk s. unfold mbind, M_bind.
  destruct (Hm s) as (e1 & T1 & P1).
  destruct (m s) as [s' [a|e]]; simpl in *.
  - destruct (Hk a s') as (e2 & T2 & P2).
    exists (e1 ++ e2). rewrite T2, T1, app_assoc. auto.
  - exists e1. auto.
Qed.

Lemma emits_for_of {A} (xs : list A) (body : A -> M unit) :
  (forall x, emits P (body x)) -> emits P (for_of xs body).
Proof.
  intros H. induction xs as [|x xs IH]; simpl.
  - apply emits_ret.
  - apply emits_bind; auto.
Qed.

Lemma emits_block {A} (m : M A) : emits P m -> emits P (block m).
Proof.
  intros H s. unfold block. destruct (H s) as (e & T & Pe).
  destruct (m s) as [s' r]. simpl in *. eauto.
Qed.

Lemma emits_try_catch body handler :
  emits P body -> (forall e, emits P (handler e)) ->
  emits P (try_catch body handler).
Proof.
  intros Hb Hh s. unfold try_catch.
  destruct (Hb s) as (e1 & T1 & P1).
  destruct (body s) as [s' [[]|e]]; simpl in *.
  - eauto.
  - destruct (Hh e s') as (e2 & T2 & P2).
    exists (e1 ++ e2). rewrite T2, T1, app_assoc. auto.
Qed.
End Emits.

Lemma call_and_await_app a b :
  call_and_await a -> call_and_await b -> call_and_await (a ++ b).
Proof. apply awaits_each_promise_app. Qed.

(** The SDK entry points, one by one. *)
Ltac run_primitive :=
  let s := fresh "s" in
  intros s; simpl; eexists;
  (split; [rewrite <- ?app_assoc; simpl; first [reflexivity | symmetry; apply app_nil_r]
          | first [reflexivity | unfold call_and_await; simpl; now rewrite ?Nat.eqb_refl]]).

Lemma awaited_promise api r : emits call_and_await (invoke_promise api r ≫= await).
Proof. run_primitive. Qed.

Lemma awaited_Database_open c : emits call_and_await (Database_open c ≫= await).
Proof. destruct c; run_primitive. Qed.
Lemma awaited_close c : emits call_and_await (close c ≫= await).
Proof. destruct c; run_primitive. Qed.
Lemma awaited_save c d: emits call_and_await (save c d ≫= await).
Proof. destruct c; run_primitive. Qed.
Lemma awaited_execute c : emits call_and_await (execute c ≫= await).
Proof. destruct c; run_primitive. Qed.
Lemma awaited_register api : emits call_and_await (register api).
Proof. run_primitive. Qed.
Lemma awaited_unregister api t : emits call_and_await (unregister api t).
Proof. destruct t; run_primitive. Qed.

Lemma awaited_reopen c : emits call_and_await (reopen c ≫= await).
Proof. destruct c; run_primitive. Qed.
Lemma awaited_collection c n : emits call_and_await (collection c n ≫= await).
Proof. destruct c; run_primitive. Qed.
Lemma awaited_getDocument c d: emits call_and_await (getDocument c d ≫= await).
Proof. destruct c; run_primitive. Qed.
Lemma awaited_deleteDocument c d: emits call_and_await (deleteDocument c d ≫= await).
Proof. destruct c; run_primitive. Qed.
Lemma awaited_replicator_method api r v :
  emits call_and_await (replicator_method api r v ≫= await).
Proof. destruct v; run_primitive. Qed.
Lemma awaited_collections c n : emits call_and_await (collections c n).
Proof. destruct c; run_primitive. Qed.
Lemma awaited_createQuery c n : emits call_and_await (createQuery c n).
Proof. destruct c; run_primitive. Qed.
Lemma awaited_addChangeListener c : emits call_and_await (addChangeListener c).
Proof. destruct c; run_primitive. Qed.
Lemma awaited_addDocumentChangeListener c d :
  emits call_and_await (addDocumentChangeListener c d).
Proof. destruct c; run_primitive. Qed.
Lemma awaited_removeChangeListener c t :
  emits call_and_await (removeChangeListener c t).
Proof. destruct c; try run_primitive; destruct t; run_primitive. Qed.
Lemma awaited_removeDocumentChangeListener c t :
  emits call_and_await (removeDocumentChangeListener c t).
Proof. destruct c; try run_primitive; destruct t; run_primitive. Qed.
Lemma awaited_remove t : emits call_and_await (remove t).
Proof. destruct t; run_primitive. Qed.
Lemma awaited_set_parameters q : emits call_and_await (set_parameters q).
Proof. destruct q; run_primitive. Qed.
Lemma awaited_query_method api q : emits call_and_await (query_method api q).
Proof. destruct q; run_primitive. Qed.
Lemma awaited_new_Replicator c : emits call_and_await (new_Replicator c).
Proof. destruct c; run_primitive. Qed.
Lemma awaited_set_onStatusChange c : emits call_and_await (set_onStatusChange c).
Proof. destruct c; run_primitive. Qed.
Lemma awaited_set_onDocuments c : emits call_and_await (set_onDocuments c).
Proof. destruct c; run_primitive. Qed.
Lemma awaited_fetch url : emits call_and_await (fetch url ≫= await).
Proof. run_primitive. Qed.
Lemma awaited_json r : emits call_and_await (json r ≫= await).
Proof. destruct r; run_primitive. Qed.
Lemma awaited_invoke api : emits call_and_await (invoke api).
Proof. run_primitive. Qed.
Lemma awaited_log t : emits call_and_await (log t).
Proof. run_primitive. Qed.
Lemma awaited_log_with t v : emits call_and_await (log_with t v).
Proof. run_primitive. Qed.
Lemma awaited_doc_id v : emits call_and_await (CodeSnippets.doc_id v).
Proof. destruct v as [| | | | |[d|]| | | | | | | | |]; run_primitive. Qed.

Create HintDb awaited.
#[local] Hint Resolve awaited_promise awaited_Database_open awaited_close awaited_reopen
  awaited_collection awaited_save awaited_getDocument awaited_deleteDocument
  awaited_execute awaited_replicator_method awaited_collections awaited_createQuery
  awaited_addChangeListener awaited_addDocumentChangeListener
  awaited_removeChangeListener awaited_removeDocumentChangeListener awaited_remove
  awaited_set_parameters awaited_query_method awaited_new_Replicator
  awaited_set_onStatusChange awaited_set_onDocuments awaited_fetch
  awaited_json awaited_invoke awaited_log awaited_log_with
  awaited_doc_id : awaited.

(** Call-and-await for a whole snippet, following its structure. *)
Ltac awaited_step :=
  lazymatch goal with
  | |- emits _ (mbind await _) => solve [auto with awaited]
  | |- emits _ (mbind _ _) => apply (emits_bind _ call_and_await_app); [|intros ?]
  | |- emits _ (mret _) => apply emits_ret; reflexivity
  | |- emits _ (throw _) => apply emits_throw; reflexivity
  | |- emits _ (var _) => apply emits_var; reflexivity
  | |- emits _ (const _ _) => apply emits_const; reflexivity
  | |- emits _ (get _) => apply emits_get; reflexivity
  | |- emits _ (emit _) => apply emits_emit; reflexivity
  | |- emits _ (block _) => apply emits_block
  | |- emits _ (try_catch _ _) =>
    apply (emits_try_catch _ call_and_await_app); [|intros ?]
  | |- emits _ (for_of _ _) =>
    apply (emits_for_of _ eq_refl call_and_await_app); intros ?
  | |- emits _ (match ?v with _ => _ end) => destruct v
  | |- emits _ (if ?b then _ else _) => destruct b
  | |- emits _ (let _ := _ in _) => cbv zeta
  | |- emits _ _ => solve [auto with awaited]
  end.

Ltac awaited := repeat awaited_step.

(** ** Call and await *)







(** Running a snippet on a state given by its fields: the SDK and the
    snippets are unfolded and reduced by value, lookups in the scope are
    resolved, and a lookup of a name the snippet did not bind is split
    into its cases. *)
Ltac reduce :=
  cbv beta iota zeta delta
    [completion events fst snd mbind M_bind mret M_ret body tag
     scope docs rows_of pending listeners counter trace
     with_scope with_docs with_listeners
     var const throw get modify emit fresh invoke invoke_promise await
     log log_with setTimeout block try_catch for_of fetch json
     Database_open close reopen collections collection createQuery
     save getDocument deleteDocument register unregister
     addChangeListener addDocumentChangeListener removeChangeListener
     removeDocumentChangeListener remove execute set_parameters
     query_method new_Replicator set_onStatusChange set_onDocuments
     replicator_method
     CodeSnippets.doc_id
     CodeSnippets.open_database CodeSnippets.open_database_encrypted
     CodeSnippets.close_database CodeSnippets.create_query
     CodeSnippets.execute_query
     CodeSnippets.create_live_query CodeSnippets.stop_replication
     CodeSnippets.collection_change_listener
     CodeSnippets.document_change_listener CodeSnippets.interrupt_query
     ReplicationSnippets.stop_replicator
     Queries.open_mydb Queries.remove_token
     Queries.live_query Queries.live_query_block
     Queries.remove_listener Queries.multiple_listeners
     Queries.typescript_live_query Queries.typescript_live_query_block
     Queries.live_query_errors Queries.live_query_errors_block
     Queries.live_query_parameters Queries.live_query_parameters_block
     Queries.live_query_performance Queries.live_query_performance_block
     Queries.live_query_pagination Queries.live_query_pagination_block
     Queries.live_query_filter Queries.live_query_filter_block
     Queries.live_query_aggregate Queries.live_query_aggregate_block
     Queries.live_query_cleanup Queries.live_query_cleanup_block
     Queries.setupQueries
     Queries.live_query_lifecycle Queries.new_TaskManager Queries.start
     Queries.updateParameters Queries.stop Queries.call
     Queries.query Queries.database Queries.listenerToken
     tokens_fresh] in *.

Ltac run :=
  repeat (reduce;
    rewrite ?lookup_insert_eq in *;
    repeat (rewrite lookup_insert_ne in * by discriminate);
    try match goal with
    | H : ?m !! ?x = _ |- context [match ?m !! ?x with _ => _ end] =>
      rewrite H
    | |- context [match ?m !! ?x with _ => _ end] =>
      is_var m; destruct (m !! x) as [[]|] eqn:?
    end; try discriminate).







(** ** One scope for the snippets of code_snippets.js *)









(** ** Listeners *)

#[local] Set Warnings "-clear-no-such-hyp".

Lemma fresh_not_listening (ls : gset nat) (c t : nat) :
  (forall t, t ∈ ls -> (t < c)%nat) -> (c <= t)%nat -> t ∉ ls.
Proof. intros F Ht Hin. apply F in Hin. lia. Qed.

Lemma fresh_token_removed (ls : gset nat) (c t : nat) :
  (forall t, t ∈ ls -> (t < c)%nat) -> (c <= t)%nat ->
  ({[t]} ∪ ls) ∖ {[t]} = ls.
Proof. intros F Ht. pose proof (fresh_not_listening ls c t F Ht). set_solver. Qed.

Lemma empty_tokens_fresh s : listeners s = ∅ -> tokens_fresh s.
Proof. intros E t. rewrite E. set_solver. Qed.

Ltac run_snippet :=
  match goal with s : State |- _ => destruct s end; run.

(** Registered and removed between the tag lines. *)

Lemma collection_change_listener_removes :
  removes_its_listeners CodeSnippets.collection_change_listener.
Proof. intros s F. run_snippet. intros _. apply (fresh_token_removed _ _ _ F). lia. Qed.

Lemma document_change_listener_removes :
  removes_its_listeners CodeSnippets.document_change_listener.
Proof.
  intros s F. run_snippet.
  all: try match goal with
           | |- context [match ?d with Some _ => _ | None => _ end] =>
             is_var d; destruct d
           end; run.
  intros _. apply (fresh_token_removed _ _ _ F). lia.
Qed.

Lemma remove_listener_removes : removes_its_listeners Queries.remove_listener.
Proof. intros s F. run_snippet. intros _. apply (fresh_token_removed _ _ _ F). lia. Qed.

Lemma multiple_listeners_removes : removes_its_listeners Queries.multiple_listeners.
Proof.
  intros s F. run_snippet. intros _.
  pose proof (fun t => fresh_not_listening _ _ t F) as N.
  pose proof (N counter0). pose proof (N (S counter0)).
  pose proof (N (S (S counter0))).
  set_solver by lia.
Qed.

Lemma live_query_lifecycle_removes :
  removes_its_listeners Queries.live_query_lifecycle.
Proof. intros s F. run_snippet. intros _. apply (fresh_token_removed _ _ _ F). lia. Qed.

(** Removed after the [end::] line, in the same block. *)

Lemma live_query_block_removes : removes_its_listeners Queries.live_query_block.
Proof. intros s F. run_snippet. intros _. apply (fresh_token_removed _ _ _ F). lia. Qed.

Lemma live_query_parameters_block_removes :
  removes_its_listeners Queries.live_query_parameters_block.
Proof. intros s F. run_snippet. intros _. apply (fresh_token_removed _ _ _ F). lia. Qed.

Lemma live_query_performance_block_removes :
  removes_its_listeners Queries.live_query_performance_block.
Proof.
  intros s F. run_snippet. intros _.
  pose proof (fun t => fresh_not_listening _ _ t F) as N.
  pose proof (N (S counter0)). pose proof (N (S (S counter0))).
  set_solver by lia.
Qed.

Lemma live_query_pagination_block_removes :
  removes_its_listeners Queries.live_query_pagination_block.
Proof. intros s F. run_snippet. intros _. apply (fresh_token_removed _ _ _ F). lia. Qed.

Lemma live_query_filter_block_removes :
  removes_its_listeners Queries.live_query_filter_block.
Proof. intros s F. run_snippet. intros _. apply (fresh_token_removed _ _ _ F). lia. Qed.

Lemma live_query_aggregate_block_removes :
  removes_its_listeners Queries.live_query_aggregate_block.
Proof. intros s F. run_snippet. intros _. apply (fresh_token_removed _ _ _ F). lia. Qed.

(** Still active at the [end::] line. *)

Lemma live_query_leaves : leaves_listening Queries.live_query (fun c => {[c]}).
Proof. intros s. run_snippet. reflexivity. Qed.

Lemma live_query_parameters_leaves :
  leaves_listening Queries.live_query_parameters (fun c => {[c]}).
Proof. intros s. run_snippet. reflexivity. Qed.

Lemma live_query_pagination_leaves :
  leaves_listening Queries.live_query_pagination (fun c => {[c]}).
Proof. intros s. run_snippet. reflexivity. Qed.

Lemma live_query_filter_leaves :
  leaves_listening Queries.live_query_filter (fun c => {[c]}).
Proof. intros s. run_snippet. reflexivity. Qed.

Lemma live_query_aggregate_leaves :
  leaves_listening Queries.live_query_aggregate (fun c => {[c]}).
Proof. intros s. run_snippet. reflexivity. Qed.

Lemma typescript_live_query_leaves :
  leaves_listening Queries.typescript_live_query (fun c => {[c]}).
Proof. intros s. run_snippet. reflexivity. Qed.

Lemma create_live_query_leaves :
  leaves_listening CodeSnippets.create_live_query (fun c => {[c]}).
Proof. intros s. run_snippet. reflexivity. Qed.

Lemma live_query_performance_leaves :
  leaves_listening Queries.live_query_performance (fun c => {[c; S c]}).
Proof. intros s. run_snippet. intros _. set_solver. Qed.

Lemma live_query_errors_leaves :
  leaves_listening Queries.live_query_errors (fun c => {[c; S c]}).
Proof. intros s. run_snippet. intros _. set_solver. Qed.

Lemma live_query_cleanup_leaves :
  leaves_listening Queries.live_query_cleanup (fun c => {[c; S c; S (S c)]}).
Proof. intros s. run_snippet. intros _. set_solver. Qed.

(** Still active when the block ends. *)

Lemma typescript_live_query_block_leaves :
  leaves_listening Queries.typescript_live_query_block (fun c => {[S c]}).
Proof. intros s. run_snippet. reflexivity. Qed.

Lemma live_query_errors_block_leaves :
  leaves_listening Queries.live_query_errors_block (fun c => {[S c; S (S c)]}).
Proof. intros s. run_snippet. intros _. set_solver. Qed.

Lemma live_query_cleanup_block_leaves :
  leaves_listening Queries.live_query_cleanup_block
    (fun c => {[S c; S (S c); S (S (S c))]}).
Proof. intros s. run_snippet. intros _. set_solver. Qed.

(** C5, refuted as stated: the listener that typescript-live-query
    registers is still active when its block ends, and so is the one of
    create-live-query when the snippet ends. *)
Lemma listeners_left_active :
  ~ removes_its_listeners Queries.typescript_live_query_block
  /\ ~ removes_its_listeners CodeSnippets.create_live_query.
Proof.
  split; intros H.
  - specialize (H Run.empty (empty_tokens_fresh Run.empty eq_refl) eq_refl).
    rewrite (typescript_live_query_block_leaves Run.empty eq_refl) in H.
    simpl in H. set_solver.
  - set (s := after [CodeSnippets.open_database] Run.empty).
    specialize (H s (empty_tokens_fresh s eq_refl) eq_refl).
    rewrite (create_live_query_leaves s eq_refl) in H.
    simpl in H. set_solver.
Qed.

(** C5, amended: collection-change-listener, document-change-listener,
    remove-listener, multiple-listeners and live-query-lifecycle remove
    every listener they register before the snippet ends.  live-query,
    live-query-parameters, live-query-performance, live-query-pagination,
    live-query-filter and live-query-aggregate end with their listeners
    active, and the remove() calls after the end tag in their block remove
    them.  typescript-live-query and create-live-query leave one listener
    active, live-query-errors two and live-query-cleanup three, for the
    snippets of queries.ts also when their block ends. *)
Theorem listeners_removed_or_left :
  Forall removes_its_listeners
    [CodeSnippets.collection_change_listener;
     CodeSnippets.document_change_listener;
     Queries.remove_listener; Queries.multiple_listeners;
     Queries.live_query_lifecycle]
  /\ Forall removes_its_listeners
      [Queries.live_query_block; Queries.live_query_parameters_block;
       Queries.live_query_performance_block; Queries.live_query_pagination_block;
       Queries.live_query_filter_block; Queries.live_query_aggregate_block]
  /\ Forall (fun m => leaves_listening m (fun c => {[c]}))
      [Queries.live_query; Queries.live_query_parameters;
       Queries.live_query_pagination; Queries.live_query_filter;
       Queries.live_query_aggregate; Queries.typescript_live_query;
       CodeSnippets.create_live_query]
  /\ leaves_listening Queries.live_query_performance (fun c => {[c; S c]})
  /\ leaves_listening Queries.live_query_errors (fun c => {[c; S c]})
  /\ leaves_listening Queries.live_query_cleanup (fun c => {[c; S c; S (S c)]})
  /\ leaves_listening Queries.typescript_live_query_block (fun c => {[S c]})
  /\ leaves_listening Queries.live_query_errors_block (fun c => {[S c; S (S c)]})
  /\ leaves_listening Queries.live_query_cleanup_block
       (fun c => {[S c; S (S c); S (S (S c))]}).
Proof.
  repeat split;
    repeat first [apply Forall_cons_2 | apply Forall_nil_2];
    auto using collection_change_listener_removes, document_change_listener_removes,
      remove_listener_removes, multiple_listeners_removes,
      live_query_lifecycle_removes, live_query_block_removes,
      live_query_parameters_block_removes, live_query_performance_block_removes,
      live_query_pagination_block_removes, live_query_filter_block_removes,
      live_query_aggregate_block_removes, live_query_leaves,
      live_query_parameters_leaves, live_query_pagination_leaves,
      live_query_filter_leaves, live_query_aggregate_leaves,
      typescript_live_query_leaves, create_live_query_leaves,
      live_query_performance_leaves, live_query_errors_leaves,
      live_query_cleanup_leaves, typescript_live_query_block_leaves,
      live_query_errors_block_leaves, live_query_cleanup_block_leaves.
Qed.

Lemma listeners_removed_or_left_witness :
  completion CodeSnippets.collection_change_listener with_task = Normal tt
  /\ listeners (fst (CodeSnippets.collection_change_listener with_task))
     = listeners with_task
  /\ completion Queries.live_query_block Run.empty = Normal tt
  /\ listeners (fst (Queries.live_query_block Run.empty)) = listeners Run.empty
  /\ completion Queries.typescript_live_query_block Run.empty = Normal tt
  /\ listeners (fst (Queries.typescript_live_query_block Run.empty))
     = {[1%nat]} ∪ listeners Run.empty.
Proof.
  destruct listeners_removed_or_left
    as (Hinside & Hblock & _ & _ & _ & _ & Htyped & _).
  split; [reflexivity|]. split.
  - apply (Forall_inv Hinside); [apply empty_tokens_fresh|]; reflexivity.
  - split; [reflexivity|]. split.
    + apply (Forall_inv Hblock); [apply empty_tokens_fresh|]; reflexivity.
    + split; [reflexivity|]. apply (Htyped Run.empty). reflexivity.
Defined.

(** ** Coverage of the topics *)

Ltac in_corpus :=
  unfold corpus, code_snippets_js, replication_snippets_js, queries_ts;
  rewrite !elem_of_app; simpl;
  first [left; solve [repeat constructor]
        | right; left; solve [repeat constructor]
        | right; right; solve [repeat constructor]].

(** C7. For each topic (database open/close, CRUD, querying, live
    queries, replication, blobs, encryption) some tagged snippet of the
    corpus, run to completion from some state, calls the SDK for that
    topic; blob-in-results does for blobs and open-database-encrypted for
    encryption. *)
Theorem every_topic_has_a_snippet :
  forall t : Topic,
    exists sn s,
      sn ∈ corpus /\ tag sn = showcase t
      /\ completion (body sn) s = Normal tt
      /\ calls_topic t sn s.
Proof.
  intros t.
  destruct t;
  [ exists {| tag := "close-database"; body := CodeSnippets.close_database |},
      (after [CodeSnippets.open_database] Run.empty)
  | exists {| tag := "create-document"; body := CodeSnippets.create_document |},
      (after [CodeSnippets.open_database; CodeSnippets.access_collection] Run.empty)
  | exists {| tag := "execute-query"; body := CodeSnippets.execute_query |},
      (after [CodeSnippets.open_database; CodeSnippets.create_query] with_attachment)
  | exists {| tag := "create-live-query"; body := CodeSnippets.create_live_query |},
      (after [CodeSnippets.open_database] Run.empty)
  | exists {| tag := "start-replication"; body := CodeSnippets.start_replication |},
      replicating
  | exists {| tag := "blob-in-results"; body := CodeSnippets.blob_in_results |},
      (after [CodeSnippets.open_database] with_attachment)
  | exists {| tag := "open-database-encrypted";
              body := CodeSnippets.open_database_encrypted |}, Run.empty ];
  (split; [in_corpus | split; [reflexivity | split; [reflexivity|]]]).
  - exists (Api_Database_close "myapp"). split; [vm_compute; repeat constructor | reflexivity].
  - exists (Api_Collection_save "tasks"). split; [vm_compute; repeat constructor | reflexivity].
  - exists (Api_Query_execute CodeSnippets.incomplete_tasks).
    split; [vm_compute; repeat constructor | reflexivity].
  - exists (Api_Query_addChangeListener CodeSnippets.incomplete_tasks).
    split; [vm_compute; repeat constructor | reflexivity].
  - exists Api_Replicator_start. split; [vm_compute; repeat constructor | reflexivity].
  - exists Api_Blob_getURL. split; [vm_compute; repeat constructor | reflexivity].
  - exists (Api_Database_open "secure-app" true).
    split; [vm_compute; repeat constructor | reflexivity].
Qed.

(** ** The lifecycle of [TaskManager] *)

Import Queries.








(** * Further properties of the code

    Properties of the functions, handlers and classes of the snippets
    beyond those the specification states. *)

Import Invariants.

(** A computation that returns passes its value and state on. *)
Lemma mbind_Normal {A B} (m : M A) (k : A -> M B) s s1 a :
  m s = (s1, Normal a) -> (m ≫= k) s = k a s1.
Proof. intros H. unfold mbind, M_bind. now rewrite H. Qed.


(** ** The monitoring handlers *)

(** X1. The status handler of tag::replication-status logs the status first,
    calls console.error exactly once when the status carries an error and
    never otherwise, and reports a stop that comes with an error twice. *)
Theorem replication_status_reports (st : ReplicationStatus.Status) :
  head (ReplicationStatus.onStatusChange st) =
    Some (Console.log_value "Replication status:"
            (JSString (ReplicationStatus.status st)))
  /\ filter (fun l => Console.is_error l = true) (ReplicationStatus.onStatusChange st) =
     match ReplicationStatus.error st with
     | Some e => [Console.error_with "Replication error:" e]
     | None => []
     end
  /\ (ReplicationStatus.status st = "stopped" ->
      forall e, ReplicationStatus.error st = Some e ->
      exists before,
        ReplicationStatus.onStatusChange st =
        before ++ [Console.error_with "Replication error:" e;
                   Console.log "Replicator stopped due to error";
                   Console.log "Replication stopped"]).
Proof.
  destruct st as [s pulled pushed err].
  unfold ReplicationStatus.onStatusChange. simpl.
  split; [reflexivity|]. split.
  - destruct pulled, pushed, err; simpl;
      repeat match goal with
             | |- context [String.eqb s ?x] => destruct (String.eqb s x)
             end; reflexivity.
  - intros -> e ->. simpl.
    eexists (_ :: _ ++ _). simpl. f_equal. rewrite <- app_assoc. reflexivity.
Qed.

Lemma replication_status_reports_witness :
  exists before,
    ReplicationStatus.onStatusChange MoreExamples.stopped_on_error =
    before ++ [Console.error_with "Replication error:" MoreExamples.unauthorized;
               Console.log "Replicator stopped due to error";
               Console.log "Replication stopped"].
Proof.
  apply (proj2 (proj2 (replication_status_reports MoreExamples.stopped_on_error)));
    reflexivity.
Defined.

(** X2. The listener of tag::document-replication-listener logs a heading and
    then one line per document, in order; it calls console.error for
    exactly the documents that carry an error, whether or not they are
    flagged as deleted. *)
Theorem onDocuments_one_line_per_document
    (collection_name direction : string)
    (documents : list DocumentReplication.ReplicatedDocument) :
  let lines := DocumentReplication.onDocuments collection_name direction documents in
  List.length lines = S (List.length documents)
  /\ (forall i doc, documents !! i = Some doc ->
      lines !! S i = Some (DocumentReplication.report direction doc)
      /\ (Console.is_error (DocumentReplication.report direction doc) = true
          <-> DocumentReplication.error doc <> None))
  /\ List.length (filter (fun l => Console.is_error l = true) lines) =
     List.length (filter (fun doc => DocumentReplication.error doc <> None) documents).
Proof.
  assert (E : forall doc,
             Console.is_error (DocumentReplication.report direction doc) = true
             <-> DocumentReplication.error doc <> None).
  { intros doc. unfold DocumentReplication.report.
    destruct (DocumentReplication.error doc) as [e|]; simpl.
    - split; [discriminate | reflexivity].
    - destruct (truthy _); simpl; split; try discriminate; congruence. }
  unfold DocumentReplication.onDocuments. simpl. split; [|split].
  - now rewrite length_fmap.
  - intros i doc Hi. split; [|apply E].
    now rewrite list_lookup_fmap, Hi.
  - change (Console.is_error (Console.log ?t)) with false.
    rewrite filter_cons_False by discriminate.
    induction documents as [|doc docs IH]; [reflexivity|].
    rewrite fmap_cons. rewrite !filter_cons.
    pose proof (E doc) as Hdoc.
    destruct (decide (Console.is_error (DocumentReplication.report direction doc) = true))
      as [Ht | Hf];
      destruct (decide (DocumentReplication.error doc <> None)) as [Hs | Hn]; simpl;
      try (now rewrite IH); tauto.
Qed.

Lemma onDocuments_one_line_per_document_witness :
  DocumentReplication.onDocuments "tasks" "pull" MoreExamples.replicated !! 3 =
    Some (Console.error_with "Error pulling task-3:" MoreExamples.unauthorized)
  /\ List.length
       (filter (fun l => Console.is_error l = true)
          (DocumentReplication.onDocuments "tasks" "pull" MoreExamples.replicated)) = 1.
Proof.
  split.
  - apply (proj1 (proj1 (proj2 (onDocuments_one_line_per_document "tasks" "pull"
                                  MoreExamples.replicated))
                    2 MoreExamples.failed_document eq_refl)).
  - apply (proj2 (proj2 (onDocuments_one_line_per_document "tasks" "pull"
                           MoreExamples.replicated))).
Defined.

(** ** The functions of tag::advanced-config *)

(** X3. On two documents that both carry a timestamp, the resolver of
    tag::advanced-config picks the document that the resolver of
    tag::conflict-resolver picks. *)
Theorem advanced_conflictResolver_agrees
    (id : string) (l r : Document) (a b : Z) :
  updatedAt l = Some a -> updatedAt r = Some b ->
  AdvancedConfig.conflictResolver id (Some l) (Some r) =
  Replication.conflictResolver id (Some l) (Some r).
Proof.
  intros Hl Hr. unfold AdvancedConfig.conflictResolver, Replication.conflictResolver.
  simpl. rewrite Hl, Hr. simpl.
  destruct (Z.eqb_spec a 0) as [-> | Ha], (Z.eqb_spec b 0) as [-> | Hb]; reflexivity.
Qed.

Lemma advanced_conflictResolver_agrees_witness :
  AdvancedConfig.conflictResolver "task-1" (Some Examples.older) (Some Examples.newer) =
  Replication.conflictResolver "task-1" (Some Examples.older) (Some Examples.newer).
Proof.
  apply (advanced_conflictResolver_agrees "task-1" Examples.older Examples.newer 1 2);
    reflexivity.
Defined.



(** X5. The resolver of the type-checked variant agrees with the resolver of
    tag::conflict-resolver on every pair of present documents.  With no
    local document it answers with the remote one exactly when that has a
    timestamp above 0, and with no document otherwise. *)
Theorem conflictResolver_ts_agrees (id : string) :
  (forall l r : Document,
     AdvancedConfig.conflictResolver_ts (Some l) (Some r) =
     Replication.conflictResolver id (Some l) (Some r))
  /\ (forall r : Document,
        AdvancedConfig.conflictResolver_ts None (Some r) =
        if (0 <? default 0 (updatedAt r))%Z then Some r else None).
Proof.
  split.
  - intros l r. reflexivity.
  - intros r. unfold AdvancedConfig.conflictResolver_ts. simpl.
    rewrite num_or_zero, Z.gtb_ltb. reflexivity.
Qed.



(** ** Conflict resolution strategies *)

Section ConflictResolution.
Import ConflictResolvers.

(** X7. The merge resolver answers with no document only when both sides are
    absent.  Of two present documents the result has every property of
    the remote one with its value, and the properties of the local one
    that the remote one lacks.  Resolving its result against the same
    remote document again changes nothing. *)
Theorem mergeResolver_merges (local remote : option AdvancedConfig.Object) :
  (mergeResolver local remote = None <-> local = None /\ remote = None)
  /\ (forall l r, local = Some l -> remote = Some r ->
      exists m, mergeResolver local remote = Some m
                /\ forall k, m !! k = match r !! k with
                                      | Some v => Some v
                                      | None => l !! k
                                      end)
  /\ mergeResolver (mergeResolver local remote) remote = mergeResolver local remote.
Proof.
  split; [|split].
  - destruct local, remote; simpl; split; try discriminate; try tauto;
      intros [? ?]; discriminate.
  - intros l r -> ->. exists (r ∪ l). split; [reflexivity|].
    intros k. rewrite lookup_union.
    destruct (r !! k), (l !! k); reflexivity.
  - destruct local as [l|], remote as [r|]; simpl; try reflexivity.
    + f_equal. rewrite (assoc_L (∪)). f_equal. apply (idemp_L (∪)).
    + f_equal. apply (idemp_L (∪)).
Qed.

Lemma mergeResolver_merges_witness :
  exists m,
    ConflictResolvers.mergeResolver (Some MoreExamples.local_revision)
      (Some MoreExamples.remote_revision) = Some m
    /\ forall k, m !! k = match MoreExamples.remote_revision !! k with
                          | Some v => Some v
                          | None => MoreExamples.local_revision !! k
                          end.
Proof.
  apply (proj1 (proj2 (mergeResolver_merges (Some MoreExamples.local_revision)
                         (Some MoreExamples.remote_revision)))); reflexivity.
Defined.

End ConflictResolution.

(** ** The merging conflict handler of [save] *)


Section SaveConflicts.
Import SaveConflict.


End SaveConflicts.


(** ** [calculateDaysOld] *)

(** X9. For a date the platform can read, calculateDaysOld returns the number
    of whole days between the date and now, rounded down: it is 0 for the
    first 24 hours, and negative for every date in the future, -1 already
    for a date one millisecond ahead. *)
Theorem calculateDaysOld_whole_days
    (parse : string -> option Z) (now : Z) (date : string) (created : Z) :
  parse date = Some created ->
  exists d : Z,
    Helpers.calculateDaysOld parse now date = Some d
    /\ (d * Helpers.day <= now - created < (d + 1) * Helpers.day)%Z
    /\ ((0 <= d)%Z <-> (created <= now)%Z)
    /\ (d = 0%Z <-> (created <= now < created + Helpers.day)%Z).
Proof.
  intros H. unfold Helpers.calculateDaysOld. rewrite H.
  eexists. split; [reflexivity|].
  assert (D : (0 < Helpers.day)%Z) by reflexivity.
  pose proof (Z.div_mod (now - created) Helpers.day ltac:(lia)) as E.
  pose proof (Z.mod_pos_bound (now - created) Helpers.day D) as B.
  set (q := ((now - created) / Helpers.day)%Z) in *.
  set (r := ((now - created) mod Helpers.day)%Z) in *.
  repeat split; try nia.
Qed.

Lemma calculateDaysOld_whole_days_witness :
  exists d : Z,
    Helpers.calculateDaysOld (fun _ => Some 1000%Z) 999%Z "2025-01-01" = Some d
    /\ (d * Helpers.day <= 999 - 1000 < (d + 1) * Helpers.day)%Z
    /\ ((0 <= d)%Z <-> (1000 <= 999)%Z)
    /\ (d = 0%Z <-> (1000 <= 999 < 1000 + Helpers.day)%Z).
Proof.
  apply (calculateDaysOld_whole_days (fun _ => Some 1000%Z) 999%Z "2025-01-01" 1000%Z).
  reflexivity.
Defined.

(** ** Paging *)

Section Paging.
Import Pagination.

Lemma navigate_snoc ms m : navigate (ms ++ [m]) = move m (navigate ms).
Proof. unfold navigate. now rewrite fold_left_app. Qed.

(** X10. However the user moves between pages after the snippet has set the
    initial page, the current page is not negative and at most the number
    of moves forward, and the query's parameters are the page size as
    limit and the current page times the page size as offset.
    previousPage on the first page stays on it, and after nextPage it
    leads back. *)
Theorem pagination_stays_in_range (ms : list Move) :
  let st := navigate ms in
  (0 <= currentPage st <= Z.of_nat (List.length (filter (fun m => m = Next) ms)))%Z
  /\ parameters st =
     Some {| limit := pageSize; offset := currentPage st * pageSize |}
  /\ (currentPage st = 0%Z -> previousPage st = st)
  /\ previousPage (nextPage st) = st.
Proof.
  simpl.
  assert (I : (0 <= currentPage (navigate ms)
               <= Z.of_nat (List.length (filter (fun m => m = Next) ms)))%Z
              /\ parameters (navigate ms) =
                 Some {| limit := pageSize;
                         offset := currentPage (navigate ms) * pageSize |}).
  { induction ms as [|m ms IH] using rev_ind.
    - split; [simpl; lia | reflexivity].
    - rewrite navigate_snoc, filter_app, length_app.
      destruct IH as [IH1 IH2].
      destruct m; (split; [|reflexivity]).
      + rewrite filter_cons_True by reflexivity.
        cbn [move nextPage updatePage currentPage List.length filter]. lia.
      + rewrite filter_cons_False by discriminate.
        cbn [move previousPage updatePage currentPage List.length filter]. lia. }
  destruct I as [I1 I2]. split; [exact I1|]. split; [exact I2|].
  destruct (navigate ms) as [page params]. simpl in *. subst params.
  unfold previousPage, nextPage, updatePage. simpl. split.
  - intros ->. reflexivity.
  - replace (Z.max 0 (page + 1 - 1)) with page by lia. reflexivity.
Qed.

Lemma pagination_stays_in_range_witness :
  Pagination.previousPage (Pagination.navigate [Pagination.Next; Pagination.Previous]) =
  Pagination.navigate [Pagination.Next; Pagination.Previous].
Proof.
  apply (proj1 (proj2 (proj2 (pagination_stays_in_range
                                [Pagination.Next; Pagination.Previous])))).
  reflexivity.
Defined.

End Paging.


(** ** Debouncing and batching *)

Section DebounceAndBatch.
Import Performance.

Lemma steady_declared : steady declared.
Proof. split; [intros i r; simpl; now rewrite lookup_empty | left; auto]. Qed.

Lemma clearTimeout_only_timer v w :
  (forall i r, timers w !! i = Some r -> updateTimeout v = Some i) ->
  timers (clearTimeout (updateTimeout v) w) = ∅.
Proof.
  intros H. apply map_eq. intros j. rewrite lookup_empty.
  unfold clearTimeout. destruct (updateTimeout v) as [i|] eqn:E; simpl.
  - destruct (decide (j = i)) as [-> | Hne]; [apply lookup_delete_eq|].
    rewrite lookup_delete_ne by congruence.
    destruct (timers w !! j) as [r|] eqn:Ej; [|reflexivity].
    apply H in Ej. congruence.
  - destruct (timers w !! j) as [r|] eqn:Ej; [|reflexivity].
    apply H in Ej. discriminate.
Qed.

(** One notification, in a state where at most the current timer is set. *)
Lemma step_Notified results v w :
  (forall i r, timers w !! i = Some r -> updateTimeout v = Some i) ->
  step (v, w) (Notified results) =
  ({| updateTimeout := Some (next_timer w); isUpdating := true |},
   {| timers := {[next_timer w := results]};
      next_timer := S (next_timer w);
      frames := if isUpdating v then frames w else frames w ++ [results];
      console := console w |}).
Proof.
  intros H. pose proof (clearTimeout_only_timer v w H) as C.
  unfold step, batched, debounced, setTimeout.
  assert (E : forall o, next_timer (clearTimeout o w) = next_timer w
                        /\ frames (clearTimeout o w) = frames w
                        /\ console (clearTimeout o w) = console w).
  { intros [i|]; simpl; auto. }
  destruct (E (updateTimeout v)) as (E1 & E2 & E3).
  rewrite C, E1, E2, E3, insert_empty. simpl.
  destruct (isUpdating v) eqn:U; reflexivity.
Qed.

Lemma step_steady s e : steady s -> steady (step s e).
Proof.
  destruct s as [v w]. intros [T F]. simpl in T, F. destruct e as [results|id|].
  - rewrite (step_Notified results v w T). split; simpl.
    + intros i r [<- _]%lookup_singleton_Some. reflexivity.
    + right. split; [reflexivity|].
      destruct F as [[-> ->] | [-> [r ->]]]; simpl; eauto.
  - unfold step, timer_fires. destruct (timers w !! id) as [results|] eqn:E.
    + split; simpl; [|exact F].
      intros i r Hi. apply (T i r).
      destruct (decide (i = id)) as [-> | Hne].
      * now rewrite lookup_delete_eq in Hi.
      * now rewrite lookup_delete_ne in Hi by congruence.
    + split; assumption.
  - unfold step, animation_frame.
    destruct F as [[U ->] | [U [r ->]]]; simpl.
    + split; [exact T | left; auto].
    + split; [exact T | left; auto].
Qed.

Lemma run_steady es s : steady s -> steady (run es s).
Proof.
  revert s. induction es as [|e es IH]; intros s H; [exact H|].
  apply IH, step_steady, H.
Qed.

Lemma run_app es es' s : run (es ++ es') s = run es' (run es s).
Proof. apply fold_left_app. Qed.

Lemma run_cons e es s : run (e :: es) s = run es (step s e).
Proof. reflexivity. Qed.

Lemma last_after_cons {A} (x : A) (l : list A) (d : A) :
  List.last (x :: l) d = List.last l x.
Proof.
  revert x d. induction l as [|y l IH]; intros x d; [reflexivity|].
  change (List.last (y :: l) d = List.last (y :: l) x). now rewrite !IH.
Qed.

(** Further notifications, while a frame is requested. *)
Lemma burst_goes_on rest v w first last0 id0 :
  isUpdating v = true -> frames w = [first] ->
  updateTimeout v = Some id0 -> timers w = {[id0 := last0]} ->
  exists v' w' id,
    run (Notified <$> rest) (v, w) = (v', w')
    /\ frames w' = [first] /\ isUpdating v' = true
    /\ updateTimeout v' = Some id
    /\ timers w' = {[id := List.last rest last0]}
    /\ console w' = console w.
Proof.
  revert v w last0 id0.
  induction rest as [|r rest IH]; intros v w last0 id0 U F Eu Et.
  - exists v, w, id0. simpl. repeat split; assumption.
  - assert (T : forall i r, timers w !! i = Some r -> updateTimeout v = Some i).
    { intros i r'. rewrite Et. intros [<- _]%lookup_singleton_Some. exact Eu. }
    rewrite fmap_cons, run_cons, (step_Notified r v w T), U.
    match goal with
    | |- context [run _ (?v1, ?w1)] =>
      destruct (IH v1 w1 r (next_timer w))
        as (v' & w' & id & R & Fr & Up & Ut & Tm & Co);
        [reflexivity | exact F | reflexivity | reflexivity |]
    end.
    exists v', w', id. split; [exact R|].
    split; [exact Fr|]. split; [exact Up|]. split; [exact Ut|].
    split; [|exact Co]. now rewrite Tm, last_after_cons.
Qed.

(** X11. Of a burst of notifications that arrive with no frame pending, the
    batching listener holds the first results for the next frame and the
    debouncing listener the last results for its only timer; nothing is
    shown before.  The frame and the timer then show these two, and
    nothing else of the burst is ever shown. *)
Theorem burst_shows_first_and_last
    (history : list Event) (first : list Row) (rest : list (list Row)) :
  let before := run (history ++ [AnimationFrame]) declared in
  exists v w id,
    run (Notified <$> (first :: rest)) before = (v, w)
    /\ frames w = [first]
    /\ updateTimeout v = Some id
    /\ timers w = {[id := List.last rest first]}
    /\ console w = console (snd before)
    /\ exists v' w',
        run [AnimationFrame; TimerFired id] (v, w) = (v', w')
        /\ console w' =
           console w ++
           [{| level := LevelLog; text := "Updating UI with results:";
               arg := Some (JSNumber (Z.of_nat (List.length first))) |};
            {| level := LevelLog; text := "Updating UI with results:";
               arg := Some (JSNumber (Z.of_nat (List.length (List.last rest first)))) |}]
        /\ frames w' = [] /\ timers w' = ∅ /\ isUpdating v' = false.
Proof.
  intros before.
  assert (S : steady before /\ isUpdating (fst before) = false
              /\ frames (snd before) = []).
  { subst before. rewrite run_app.
    pose proof (run_steady history declared steady_declared) as S.
    destruct (run history declared) as [v w]. destruct S as [T F]. simpl in T, F.
    rewrite run_cons. simpl run. unfold step, animation_frame.
    destruct F as [[U ->] | [U [r ->]]]; simpl;
      (split; [split; [exact T | left; auto] | auto]). }
  destruct before as [v0 w0]. destruct S as ([T _] & U0 & F0). simpl in T, U0, F0.
  rewrite fmap_cons, run_cons, (step_Notified first v0 w0 T), U0, F0.
  match goal with
  | |- context [run _ (?v1, ?w1)] =>
    destruct (burst_goes_on rest v1 w1 first first (next_timer w0))
      as (v & w & id & R & Fr & Up & Ut & Tm & Co);
      [reflexivity | reflexivity | reflexivity | reflexivity |]
  end.
  exists v, w, id. split; [exact R|].
  simpl in Co. split; [exact Fr|]. split; [exact Ut|]. split; [exact Tm|].
  split; [exact Co|].
  rewrite !run_cons. simpl run. unfold step, animation_frame, timer_fires.
  destruct v as [ut iu], w as [tm nt fr co]. simpl in *. subst.
  simpl. rewrite lookup_singleton_eq. simpl.
  eexists _, _. split; [reflexivity|]. simpl.
  rewrite <- app_assoc. split; [reflexivity|]. split; [reflexivity|].
  split; [apply delete_singleton_eq | reflexivity].
Qed.

End DebounceAndBatch.


(** ** [SmartQueryManager] *)

Section SmartQueryManagerCalls.
Import Conditional.

Lemma smart_call_keeps_owns m this others s :
  owns this others s ->
  exists s' this',
    call m this s = (s', Normal this')
    /\ owns this' others s'
    /\ (token this' <> None <-> smart_listening_after [m] (bool_decide (token this <> None)) = true).
Proof.
  intros (F & [sql Hq] & Htok & L).
  assert (Start : exists s' this',
            startListening this s = (s', Normal this')
            /\ owns this' others s' /\ token this' <> None).
  { unfold startListening. destruct (token this) as [tok|] eqn:E.
    - exists s, this. split; [reflexivity|]. split; [|congruence].
      split; [exact F|]. split; [eauto|]. rewrite E. auto.
    - rewrite Hq. destruct s. reduce. eexists _, _. split; [reflexivity|].
      unfold owns, tokens_fresh in *. simpl in *.
      split; [|discriminate]. split; [|split; [eauto|split]].
      + intros t. rewrite elem_of_union, elem_of_singleton.
        intros [-> | Hin]; [lia | apply F in Hin; lia].
      + simpl. eexists. split; [reflexivity|].
        intros Hin. assert (counter0 ∈ listeners0) as Hin' by set_solver.
        apply F in Hin'. lia.
      + simpl. set_solver. }
  assert (Stop : exists s' this',
            stopListening this s = (s', Normal this')
            /\ owns this' others s' /\ token this' = None).
  { unfold stopListening. destruct (token this) as [tok|] eqn:E.
    - destruct Htok as (t & -> & Hfresh). destruct s. reduce.
      eexists _, _. split; [reflexivity|]. unfold owns, tokens_fresh in *. simpl in *.
      split; [|reflexivity]. split; [|split; [eauto|split; [exact I|]]].
      + intros t'. rewrite elem_of_difference. intros [Hin _]. now apply F.
      + simpl. set_solver.
    - exists s, this. split; [reflexivity|]. split; [|exact E].
      split; [exact F|]. split; [eauto|]. rewrite E. auto. }
  destruct m as [| |[|]]; simpl.
  - destruct Start as (s' & this' & E & O & T). exists s', this'. tauto.
  - destruct Stop as (s' & this' & E & O & T). exists s', this'.
    split; [exact E|]. split; [exact O|]. rewrite T. split; [congruence | discriminate].
  - destruct Stop as (s' & this' & E & O & T). exists s', this'.
    split; [exact E|]. split; [exact O|]. rewrite T. split; [congruence | discriminate].
  - destruct Start as (s' & this' & E & O & T). exists s', this'. tauto.
Qed.

Lemma smart_listening_after_app ms ms' b :
  smart_listening_after (ms ++ ms') b =
  smart_listening_after ms' (smart_listening_after ms b).
Proof. revert b. induction ms as [|[| |h] ms IH]; intros b; simpl; auto. Qed.

Lemma smart_calls_keep_owns ms this others s :
  owns this others s ->
  exists s' this',
    calls ms this s = (s', Normal this')
    /\ owns this' others s'
    /\ (token this' <> None <->
        smart_listening_after ms (bool_decide (token this <> None)) = true).
Proof.
  revert this s. induction ms as [|m ms IH]; intros this s O.
  - exists s, this. split; [reflexivity|]. split; [exact O|]. simpl.
    now rewrite bool_decide_eq_true.
  - destruct (smart_call_keeps_owns m this others s O) as (s1 & this1 & E1 & O1 & L1).
    destruct (IH this1 s1 O1) as (s2 & this2 & E2 & O2 & L2).
    exists s2, this2. split; [|split; [exact O2|]].
    + simpl. unfold mbind, M_bind. now rewrite E1.
    + rewrite L2. change (m :: ms) with ([m] ++ ms).
      rewrite smart_listening_after_app.
      destruct (smart_listening_after [m] _) eqn:B.
      * rewrite bool_decide_eq_true_2 by tauto. reflexivity.
      * rewrite bool_decide_eq_false_2; [reflexivity|].
        intros H. apply L1 in H. congruence.
Qed.

(** X12. A [SmartQueryManager] made where [database] is a database keeps at
    most one listener registered, however often and in whatever order
    startListening, stopListening and handleVisibilityChange are called:
    every call returns, the manager holds a token exactly when the last
    call was a start (or a visibility change to visible), and the
    listeners registered are then that of its token and those that were
    registered before, and otherwise just the latter. *)
Theorem SmartQueryManager_one_listener
    (ms : list Method) (s s0 : State) (this0 : SmartQueryManager) :
  tokens_fresh s ->
  new_SmartQueryManager s = (s0, Normal this0) ->
  exists s' this',
    calls ms this0 s0 = (s', Normal this')
    /\ (token this' <> None <-> smart_listening_after ms false = true)
    /\ listeners s' = listener_of (token this') ∪ listeners s
    /\ (forall tok, token this' = Some tok ->
        exists t, tok = VToken t /\ t ∉ listeners s)
    /\ size (listeners s' ∖ listeners s) <= 1.
Proof.
  intros F New.
  assert (O : owns this0 (listeners s) s0).
  { unfold new_SmartQueryManager in New. destruct s. revert New. run.
    all: intros [= <- <-]; (split; [exact F|]); (split; [eauto|]);
      split; [exact I | simpl; set_solver]. }
  destruct (smart_calls_keep_owns ms this0 (listeners s) s0 O)
    as (s' & this' & E & (F' & Hq & Htok & L) & B).
  assert (T0 : token this0 = None).
  { unfold new_SmartQueryManager in New. destruct s. revert New. run.
    all: now intros [= <- <-]. }
  rewrite T0 in B. rewrite bool_decide_eq_false_2 in B by tauto.
  exists s', this'. split; [exact E|]. split; [exact B|]. split; [exact L|].
  split.
  - intros tok Et. rewrite Et in Htok. exact Htok.
  - rewrite L. destruct (token this') as [[]|]; simpl;
      try (replace ((∅ ∪ listeners s) ∖ listeners s) with (∅ : gset nat) by set_solver;
           rewrite size_empty; lia).
    transitivity (size ({[t]} : gset nat)); [|now rewrite size_singleton].
    apply subseteq_size. set_solver.
Qed.

Lemma SmartQueryManager_one_listener_witness :
  exists s' this',
    calls [CallStartListening; CallStartListening;
           CallHandleVisibilityChange true; CallHandleVisibilityChange false]
      {| token := None;
         query := VQuery "SELECT * FROM tasks WHERE completed = false" |}
      (fst (new_SmartQueryManager (after [Queries.open_mydb] Run.empty)))
    = (s', Normal this')
    /\ (token this' <> None <->
        smart_listening_after
          [CallStartListening; CallStartListening;
           CallHandleVisibilityChange true; CallHandleVisibilityChange false]
          false = true)
    /\ listeners s' =
       listener_of (token this') ∪ listeners (after [Queries.open_mydb] Run.empty)
    /\ (forall tok, token this' = Some tok ->
        exists t, tok = VToken t
                  /\ t ∉ listeners (after [Queries.open_mydb] Run.empty))
    /\ size (listeners s' ∖ listeners (after [Queries.open_mydb] Run.empty)) <= 1.
Proof.
  apply (SmartQueryManager_one_listener
           [CallStartListening; CallStartListening;
            CallHandleVisibilityChange true; CallHandleVisibilityChange false]
           (after [Queries.open_mydb] Run.empty)).
  - intros t Hin. simpl in Hin. set_solver.
  - reflexivity.
Defined.

(** X13. startListening on a manager that is listening, and stopListening on
    one that is not, do nothing: no call of the SDK, no line on the
    console, the same object.  So a second startListening after a first
    changes nothing. *)
Theorem startListening_idempotent (this : SmartQueryManager) (s : State) :
  (token this <> None -> startListening this s = (s, Normal this))
  /\ (token this = None -> stopListening this s = (s, Normal this))
  /\ (forall s1 this1,
        startListening this s = (s1, Normal this1) ->
        startListening this1 s1 = (s1, Normal this1))
  /\ (forall s1 this1,
        stopListening this s = (s1, Normal this1) ->
        stopListening this1 s1 = (s1, Normal this1)).
Proof.
  assert (A : forall this s, token this <> None ->
                startListening this s = (s, Normal this)).
  { intros this' s' H. unfold startListening.
    destruct (token this'); [reflexivity | contradiction]. }
  assert (B : forall this s, token this = None ->
                stopListening this s = (s, Normal this)).
  { intros this' s' H. unfold stopListening. now rewrite H. }
  split; [apply A|]. split; [apply B|]. split.
  - intros s1 this1 H. apply A. revert H. unfold startListening.
    destruct (token this) as [tok|] eqn:E.
    + intros [= <- <-]. congruence.
    + destruct (query this); destruct s; reduce; intros [= <- <-]; discriminate.
  - intros s1 this1 H. apply B. revert H. unfold stopListening.
    destruct (token this) as [tok|] eqn:E.
    + destruct tok; destruct s; reduce; intros [= <- <-]; reflexivity.
    + now intros [= <- <-].
Qed.

Lemma startListening_idempotent_witness :
  Conditional.startListening MoreExamples.listening_smart_manager MoreExamples.opened
  = (MoreExamples.opened, Normal MoreExamples.listening_smart_manager).
Proof.
  apply (proj1 (startListening_idempotent MoreExamples.listening_smart_manager
                  MoreExamples.opened)).
  discriminate.
Defined.

End SmartQueryManagerCalls.


(** ** A second [start()] of [TaskManager] *)







(** ** [useLiveQuery] *)

Lemma hook_keeps_watching queryString h token listening others s :
  watching token listening others s ->
  exists s' token',
    Vue.hook queryString h token s = (s', Normal token')
    /\ watching token' (mounted_after [h] listening) others s'.
Proof.
  intros (F & [name Hdb] & Htok & L).
  assert (Setup : exists s' token',
            Vue.setupQuery queryString token s = (s', Normal token')
            /\ watching token' true others s').
  { unfold Vue.setupQuery.
    destruct token as [tok|].
    - destruct Htok as (t & -> & Hfresh).
      destruct s. reduce. simpl in Hdb. rewrite Hdb. reduce.
      eexists _, _. split; [reflexivity|].
      unfold watching, tokens_fresh in *. simpl in *.
      assert (Ho : forall x, x ∈ others -> x < counter0).
      { intros x Hx. apply F. rewrite L. set_solver. }
      split; [|split; [eauto|split]].
      + intros x. rewrite elem_of_union, elem_of_singleton, elem_of_difference.
        intros [-> | [Hin _]]; [lia | apply F in Hin; lia].
      + eexists. split; [reflexivity|]. intros Hin. apply Ho in Hin. lia.
      + rewrite L. destruct listening; simpl; set_solver.
    - destruct s. reduce. simpl in Hdb. rewrite Hdb. reduce.
      eexists _, _. split; [reflexivity|].
      unfold watching, tokens_fresh in *. simpl in *. subst listening.
      assert (Ho : forall x, x ∈ others -> x < counter0).
      { intros x Hx. apply F. rewrite L. set_solver. }
      split; [|split; [eauto|split]].
      + intros x. rewrite elem_of_union, elem_of_singleton.
        intros [-> | Hin]; [lia | apply F in Hin; lia].
      + eexists. split; [reflexivity|]. intros Hin. apply Ho in Hin. lia.
      + rewrite L. set_solver. }
  destruct h; simpl; try exact Setup.
  unfold Vue.unmounted. destruct token as [tok|].
  - destruct Htok as (t & -> & Hfresh). destruct s. reduce.
    eexists _, _. split; [reflexivity|].
    unfold watching, tokens_fresh in *. simpl in *.
    split; [|split; [eauto|split; [eauto|]]].
    + intros x. rewrite elem_of_difference. intros [Hin _]. now apply F.
    + rewrite L. destruct listening; simpl; set_solver.
  - exists s, None. split; [reflexivity|].
    unfold watching in *. simpl in *. subst listening.
    split; [exact F|]. split; [eauto|]. split; [reflexivity | exact L].
Qed.

Lemma mounted_after_app hs hs' b :
  mounted_after (hs ++ hs') b = mounted_after hs' (mounted_after hs b).
Proof. revert b. induction hs as [|[| |] hs IH]; intros b; simpl; auto. Qed.

Lemma hooks_keep_watching queryString hs token listening others s :
  watching token listening others s ->
  exists s' token',
    Vue.hooks queryString hs token s = (s', Normal token')
    /\ watching token' (mounted_after hs listening) others s'.
Proof.
  revert token listening s. induction hs as [|h hs IH]; intros token listening s W.
  - exists s, token. split; [reflexivity | exact W].
  - destruct (hook_keeps_watching queryString h token listening others s W)
      as (s1 & token1 & E1 & W1).
    destruct (IH token1 _ s1 W1) as (s2 & token2 & E2 & W2).
    exists s2, token2. split.
    + simpl. unfold mbind, M_bind. now rewrite E1.
    + change (h :: hs) with ([h] ++ hs). now rewrite mounted_after_app.
Qed.

(** X15. The composable of tag::live-query-vue keeps one listener while the
    component is mounted: through every sequence of mounting, changes of
    the parameters and unmounting, each callback returns; afterwards, if
    the last was not the unmounting, exactly the listener of the current
    token is registered besides those of the rest of the application, and
    after the unmounting none is. *)
Theorem useLiveQuery_one_listener
    (queryString : string) (hs : list Vue.Hook) (s : State) (name : string) :
  tokens_fresh s ->
  scope s !! "database" = Some (VDatabase name) ->
  exists s' token,
    Vue.hooks queryString hs None s = (s', Normal token)
    /\ listeners s' =
       (if mounted_after hs false then listener_of token else ∅) ∪ listeners s
    /\ (mounted_after hs false = true ->
        exists t, token = Some (VToken t) /\ t ∉ listeners s).
Proof.
  intros F Hdb.
  assert (W : watching None false (listeners s) s).
  { split; [exact F|]. split; [eauto|]. split; [reflexivity | set_solver]. }
  destruct (hooks_keep_watching queryString hs None false (listeners s) s W)
    as (s' & token & E & (F' & _ & Htok & L)).
  exists s', token. split; [exact E|]. split; [exact L|].
  intros M. destruct token as [tok|].
  - destruct Htok as (t & -> & Hfresh). eauto.
  - congruence.
Qed.

Lemma useLiveQuery_one_listener_witness :
  exists s' token,
    Vue.hooks "SELECT * FROM tasks WHERE completed = $completed"
      [Vue.Mounted; Vue.ParamsChanged; Vue.ParamsChanged] None MoreExamples.opened
    = (s', Normal token)
    /\ listeners s' =
       (if mounted_after [Vue.Mounted; Vue.ParamsChanged; Vue.ParamsChanged] false
        then listener_of token else ∅) ∪ listeners MoreExamples.opened
    /\ (mounted_after [Vue.Mounted; Vue.ParamsChanged; Vue.ParamsChanged] false = true ->
        exists t, token = Some (VToken t) /\ t ∉ listeners MoreExamples.opened).
Proof.
  apply (useLiveQuery_one_listener
           "SELECT * FROM tasks WHERE completed = $completed"
           [Vue.Mounted; Vue.ParamsChanged; Vue.ParamsChanged]
           MoreExamples.opened "mydb").
  - intros t Hin. simpl in Hin. set_solver.
  - reflexivity.
Defined.


(** ** [LiveQueryComponent] *)

Lemma setupQueries_keeps_tracked tokens others s :
  tracked tokens others s ->
  exists s' tokens',
    Queries.setupQueries tokens s = (s', Normal tokens')
    /\ tracked tokens' others s'
    /\ List.length tokens' = (List.length tokens + 3)%nat.
Proof.
  intros (F & [name Hdb] & ts & -> & ND & Hfresh & L).
  destruct s. simpl in Hdb. run.
  eexists _, _. split; [reflexivity|].
  unfold tracked, tokens_fresh in *. simpl in *.
  assert (Hts : forall x, x ∈ ts -> x < counter0).
  { intros x Hx. apply F. rewrite L. set_solver. }
  assert (Ho : forall x, x ∈ others -> x < counter0).
  { intros x Hx. apply F. rewrite L. set_solver. }
  split; [|rewrite !length_app; simpl; lia].
  split; [|split; [eauto|]].
  - intros x. rewrite !elem_of_union, !elem_of_singleton.
    intros [-> | [-> | [-> | Hin]]]; try lia. apply F in Hin. lia.
  - exists (ts ++ [counter0; S counter0; S (S counter0)]).
    split; [|split; [|split]].
    + rewrite fmap_app, <- !app_assoc. reflexivity.
    + apply NoDup_app. split; [exact ND|]. split.
      * intros x Hx Hx'. apply Hts in Hx. set_unfold. lia.
      * repeat (apply NoDup_cons; split; [set_unfold; lia|]). apply NoDup_nil_2.
    + intros x. rewrite elem_of_app. intros [Hx | Hx]; [now apply Hfresh|].
      intros Hin. apply Ho in Hin. set_unfold. lia.
    + rewrite list_to_set_app_L, L. set_solver.
Qed.

Lemma setupQueries_times_keeps_tracked n tokens others s :
  tracked tokens others s ->
  exists s' tokens',
    setupQueries_times n tokens s = (s', Normal tokens')
    /\ tracked tokens' others s'
    /\ List.length tokens' = (List.length tokens + 3 * n)%nat.
Proof.
  revert tokens s. induction n as [|n IH]; intros tokens s T.
  - exists s, tokens. split; [reflexivity|]. split; [exact T | lia].
  - destruct (setupQueries_keeps_tracked tokens others s T) as (s1 & tokens1 & E1 & T1 & L1).
    destruct (IH tokens1 s1 T1) as (s2 & tokens2 & E2 & T2 & L2).
    exists s2, tokens2. split; [|split; [exact T2 | lia]].
    simpl. unfold mbind, M_bind. now rewrite E1.
Qed.

(** Removing the listeners of a list of tokens, one after the other. *)
Lemma for_of_remove (ts : list nat) (s : State) :
  exists s',
    for_of (VToken <$> ts) remove s = (s', Normal tt)
    /\ listeners s' = listeners s ∖ list_to_set ts
    /\ scope s' = scope s
    /\ counter s' = counter s.
Proof.
  revert s. induction ts as [|t ts IH]; intros s.
  - exists s. simpl. split; [reflexivity|]. split; [set_solver | auto].
  - rewrite fmap_cons. simpl for_of.
    destruct (remove (VToken t) s) as [s1 c1] eqn:E1.
    assert (H1 : c1 = Normal tt /\ listeners s1 = listeners s ∖ {[t]}
                 /\ scope s1 = scope s /\ counter s1 = counter s).
    { revert E1. destruct s. reduce. intros [= <- <-]. auto. }
    destruct H1 as (-> & L1 & S1 & C1).
    destruct (IH s1) as (s2 & E2 & L2 & S2 & C2).
    exists s2. split; [now rewrite (mbind_Normal _ _ _ _ _ E1)|].
    split; [|split; congruence].
    rewrite L2, L1. set_solver.
Qed.

Lemma cleanup_removes (ts : list nat) (s : State) :
  exists s',
    Queries.cleanup (VToken <$> ts) s = (s', Normal [])
    /\ listeners s' = listeners s ∖ list_to_set ts.
Proof.
  destruct (for_of_remove ts s) as (s1 & E & L & _ & _).
  unfold Queries.cleanup. rewrite (mbind_Normal _ _ _ _ _ E).
  eexists. split; [reflexivity | exact L].
Qed.

(** X16. cleanup() of a [LiveQueryComponent] removes every listener that
    setupQueries() has registered, however often setupQueries() was
    called: [n] calls register [3 * n] listeners and keep as many tokens,
    and after cleanup() the listeners registered are those from before and
    the component holds no token. *)
Theorem LiveQueryComponent_cleanup_removes_all
    (n : nat) (s : State) (name : string) :
  tokens_fresh s ->
  scope s !! "database" = Some (VDatabase name) ->
  exists s1 tokens s2,
    setupQueries_times n [] s = (s1, Normal tokens)
    /\ List.length tokens = (3 * n)%nat
    /\ size (listeners s1 ∖ listeners s) = (3 * n)%nat
    /\ Queries.cleanup tokens s1 = (s2, Normal [])
    /\ listeners s2 = listeners s.
Proof.
  intros F Hdb.
  assert (T : tracked [] (listeners s) s).
  { split; [exact F|]. split; [eauto|]. exists []. simpl.
    split; [reflexivity|]. split; [apply NoDup_nil_2|]. split; set_solver. }
  destruct (setupQueries_times_keeps_tracked n [] (listeners s) s T)
    as (s1 & tokens & E & (F1 & _ & ts & -> & ND & Hfresh & L1) & Len).
  destruct (cleanup_removes ts s1) as (s2 & E2 & L2).
  simpl in Len. rewrite length_fmap in Len.
  exists s1, (VToken <$> ts), s2. split; [exact E|].
  split; [now rewrite length_fmap|]. split; [|split].
  - rewrite L1.
    replace ((list_to_set ts ∪ listeners s) ∖ listeners s)
      with (list_to_set ts : gset nat) by set_solver.
    rewrite size_list_to_set by exact ND. exact Len.
  - exact E2.
  - rewrite L2, L1. set_solver.
Qed.

Lemma LiveQueryComponent_cleanup_removes_all_witness :
  exists s1 tokens s2,
    setupQueries_times 2 [] MoreExamples.opened = (s1, Normal tokens)
    /\ List.length tokens = (3 * 2)%nat
    /\ size (listeners s1 ∖ listeners MoreExamples.opened) = (3 * 2)%nat
    /\ Queries.cleanup tokens s1 = (s2, Normal [])
    /\ listeners s2 = listeners MoreExamples.opened.
Proof.
  apply (LiveQueryComponent_cleanup_removes_all 2 MoreExamples.opened "mydb").
  - intros t Hin. simpl in Hin. set_solver.
  - reflexivity.
Defined.


(** ** Calling [updateTaskList] again *)

Lemma first_in_alter i f k0 cs k p :
  Forall (fun c => forall p, getElementById i c = Some p ->
                   getElementById i (update_at p f c) = Some p) cs ->
  first_in i k0 cs = Some (k :: p) ->
  first_in i k0 (alter (update_at p f) (k - k0) cs) = Some (k :: p).
Proof.
  intros Hcs. revert k0. induction Hcs as [|c cs Hc Hcs IH]; intros k0; [discriminate|].
  simpl. destruct (getElementById i c) as [q|] eqn:E.
  - intros [= <- <-]. rewrite Nat.sub_diag. simpl. now rewrite (Hc _ eq_refl).
  - intros H. destruct (first_in_Some _ _ _ _ H) as (k' & p' & c' & [= -> ->] & _).
    assert (Ek : S (k0 + k') - k0 = S (k0 + k' - k0)) by lia.
    rewrite Ek. simpl. rewrite E. exact (IH (S k0) H).
Qed.

(** The element that [getElementById] finds is found again after a
    mutation of it that leaves it its id. *)
Lemma getElementById_update_at i f n :
  keeps_element f ->
  forall p, getElementById i n = Some p ->
  getElementById i (update_at p f n) = Some p.
Proof.
  intros Hf. induction n as [s | t j cs IH] using Node_ind; intros p; [discriminate|].
  rewrite getElementById_Element.
  destruct (String.eqb_spec j i) as [-> | Hne].
  - intros [= <-]. simpl. destruct (Hf t i cs) as [cs' ->].
    rewrite getElementById_Element. now rewrite String.eqb_refl.
  - intros H. destruct (first_in_Some _ _ _ _ H) as (k & p' & c & -> & _).
    simpl update_at. rewrite getElementById_Element.
    destruct (String.eqb_spec j i) as [? | _]; [contradiction|].
    pose proof (first_in_alter i f 0 cs (0 + k) p' IH H) as A.
    now rewrite Nat.sub_0_r in A.
Qed.

(** What the loop of [updateTaskList] does to the list element depends
    on the rows only. *)
Lemma append_rows_acc taskList results :
  exists h o,
    keeps_element h
    /\ forall f page,
        append_rows taskList results (update_at taskList f page) =
        (update_at taskList (h ∘ f) page, o).
Proof.
  induction results as [|row rest (h & o & Hh & IH)].
  - exists id, Returned. split; [intros t j cs; eauto | reflexivity].
  - simpl. destruct (tasks row) as [task|].
    + exists (h ∘ appendChild (set_textContent (title task) (createElement "li"))), o.
      split.
      * intros t j cs. simpl. apply Hh.
      * intros f page. rewrite update_at_compose. apply IH.
    + exists id, ThrewTypeError. split; [intros t j cs; eauto | reflexivity].
Qed.

(** X17. The task list shows the latest results only: a call of
    updateTaskList gives the page that it gives without the calls before
    it, also when one of those stopped at a row without a tasks document. *)
Theorem updateTaskList_shows_latest (earlier latest : list Row) (page : Node) :
  updateTaskList latest (fst (updateTaskList earlier page)) =
  updateTaskList latest page.
Proof.
  unfold updateTaskList at 2 3.
  destruct (getElementById "task-list" page) as [taskList|] eqn:Hfind;
    [|simpl; unfold updateTaskList; now rewrite Hfind].
  destruct (getElementById_node_at _ _ _ Hfind) as (t & old & Hat).
  destruct (append_rows_acc taskList earlier) as (h & o & Hh & Hrows).
  rewrite Hrows. simpl fst. unfold updateTaskList.
  assert (K : keeps_element (h ∘ clear_innerHTML)).
  { intros t' j cs. simpl. apply Hh. }
  rewrite (getElementById_update_at _ _ _ K _ Hfind).
  rewrite update_at_compose. f_equal.
  apply (update_at_ext _ _ _ _ _ Hat). simpl.
  destruct (Hh t "task-list" []) as [cs' ->]. reflexivity.
Qed.


(** ** A row without [tasks] *)

Lemma append_rows_app taskList before rest page page1 :
  append_rows taskList before page = (page1, Returned) ->
  append_rows taskList (before ++ rest) page = append_rows taskList rest page1.
Proof.
  revert page. induction before as [|row before IH]; intros page; simpl.
  - now intros [= ->].
  - destruct (tasks row); [apply IH | discriminate].
Qed.

(** X18. updateTaskList throws at the first row without a tasks document: the
    page is then what the rows before that row alone give, with the list
    emptied and one item for each of them, and the rows after it are not
    looked at. *)
Theorem updateTaskList_stops_at_row_without_tasks
    (before after : list Row) (row : Row) (ts : list Document)
    (page : Node) (taskList : Path) :
  getElementById "task-list" page = Some taskList ->
  tasks <$> before = Some <$> ts ->
  tasks row = None ->
  updateTaskList (before ++ row :: after) page =
    (fst (updateTaskList before page), ThrewTypeError)
  /\ exists t,
      node_at taskList (fst (updateTaskList before page)) =
      Some (Element t "task-list" ((fun task => list_item (title task)) <$> ts)).
Proof.
  intros Hfind Hrows Hrow. unfold updateTaskList. rewrite Hfind.
  destruct (getElementById_node_at _ _ _ Hfind) as (t & old & Hat).
  pose proof (append_rows_all taskList before clear_innerHTML page ts Hrows) as E.
  split.
  - rewrite (append_rows_app _ _ _ _ _ E), E. simpl. now rewrite Hrow.
  - exists t. rewrite E. simpl fst.
    rewrite (node_at_update_at _ _ _ _ Hat). simpl. now rewrite fold_appendChild.
Qed.

Lemma updateTaskList_stops_at_row_without_tasks_witness :
  updateTaskList
    (sample_rows ++ {| tasks := None; column_title := Some "Report"; attachment := None |}
                 :: sample_rows) sample_page =
    (fst (updateTaskList sample_rows sample_page), ThrewTypeError)
  /\ exists t,
      node_at [1%nat] (fst (updateTaskList sample_rows sample_page)) =
      Some (Element t "task-list" ((fun task => list_item (title task)) <$> [older; newer])).
Proof.
  apply (updateTaskList_stops_at_row_without_tasks sample_rows sample_rows
           {| tasks := None; column_title := Some "Report"; attachment := None |}
           [older; newer] sample_page [1%nat]); reflexivity.
Defined.

(** ** What execute-query logs *)

Lemma for_of_log_titles (rows : list Row) (ts : list Document) (s : State) :
  tasks <$> rows = Some <$> ts ->
  exists s',
    for_of rows (fun row =>
      match tasks row with
      | Some task => log ("Task: " +:+ title task)
      | None => throw (TypeError "title")
      end) s = (s', Normal tt)
    /\ trace s' =
       trace s ++ ((fun t => EvConsole (console_log ("Task: " +:+ title t))) <$> ts)
    /\ scope s' = scope s.
Proof.
  revert ts s. induction rows as [|row rows IH]; intros ts s H.
  - destruct ts; [|discriminate]. exists s. simpl. now rewrite app_nil_r.
  - destruct ts as [|t ts]; [discriminate|]. simpl in H. injection H as Hrow Hrows.
    simpl for_of. rewrite Hrow.
    destruct (IH ts (fst (log ("Task: " +:+ title t) s)) Hrows) as (s' & E & T & Sc).
    exists s'. split; [|split].
    + rewrite (mbind_Normal _ _ s (fst (log ("Task: " +:+ title t) s)) tt);
        [exact E | now destruct s].
    + rewrite T. destruct s. simpl. now rewrite <- app_assoc.
    + rewrite Sc. now destruct s.
Qed.

(** X19. Where [query] is a query whose rows each carry a tasks document,
    execute-query executes it with an awaited call, logs the title of
    each row in order, and then the number of rows. *)
Theorem execute_query_logs_each_task
    (s : State) (sql : string) (ts : list Document) :
  scope s !! "query" = Some (VQuery sql) ->
  tasks <$> rows_of s sql = Some <$> ts ->
  completion CodeSnippets.execute_query s = Normal tt
  /\ events CodeSnippets.execute_query s =
     [EvInvoke (Api_Query_execute sql) (Some (counter s)); EvAwait (counter s)]
     ++ ((fun t => EvConsole (console_log ("Task: " +:+ title t))) <$> ts)
     ++ [EvConsole (console_log ("Found " +:+ pretty (List.length ts) +:+ " tasks"))].
Proof.
  intros Hq Hrows.
  set (s1 := {| scope := scope s; docs := docs s; rows_of := rows_of s;
                pending := pending s; listeners := listeners s;
                counter := S (counter s);
                trace := (trace s ++ [EvInvoke (Api_Query_execute sql) (Some (counter s))])
                         ++ [EvAwait (counter s)] |}).
  set (s2 := with_scope (insert "results" (VRows (rows_of s sql))) s1).
  destruct (for_of_log_titles (rows_of s sql) ts s2 Hrows) as (s3 & E3 & T3 & _).
  assert (E : CodeSnippets.execute_query s =
              log ("Found " +:+ pretty (List.length (rows_of s sql)) +:+ " tasks") s3).
  { unfold CodeSnippets.execute_query.
    rewrite (mbind_Normal _ _ s s (VQuery sql)) by (unfold var; now rewrite Hq).
    rewrite (mbind_Normal _ _ s s1 (VRows (rows_of s sql))) by (now destruct s).
    rewrite (mbind_Normal _ _ s1 s2 tt) by reflexivity.
    now rewrite (mbind_Normal _ _ s2 s3 tt) by exact E3. }
  assert (Len : List.length (rows_of s sql) = List.length ts).
  { rewrite <- (length_fmap tasks), Hrows. apply length_fmap. }
  split.
  - unfold completion. rewrite E. now destruct s3.
  - apply events_app. rewrite E. destruct s3. simpl in *. rewrite T3, Len.
    now rewrite <- !app_assoc.
Qed.

Lemma execute_query_logs_each_task_witness :
  completion CodeSnippets.execute_query MoreExamples.queried = Normal tt
  /\ events CodeSnippets.execute_query MoreExamples.queried =
     [EvInvoke (Api_Query_execute CodeSnippets.incomplete_tasks)
        (Some (counter MoreExamples.queried));
      EvAwait (counter MoreExamples.queried)]
     ++ ((fun t => EvConsole (console_log ("Task: " +:+ title t))) <$> [older; newer])
     ++ [EvConsole (console_log ("Found " +:+ pretty (List.length [older; newer]) +:+ " tasks"))].
Proof.
  apply (execute_query_logs_each_task MoreExamples.queried
           CodeSnippets.incomplete_tasks [older; newer]); reflexivity.
Defined.


(** ** The replacer for circular references *)

Section CircularReferences.
Import Serialization.

Lemma replace_all_lookup values seen i value :
  values !! i = Some value ->
  replace_all values seen !! i =
  Some (match value with
        | Reference key =>
          if bool_decide (key ∈ seen \/ Reference key ∈ take i values)
          then Primitive (JSString "[Circular]") else value
        | Primitive _ => value
        end).
Proof.
  revert seen i. induction values as [|v values IH]; intros seen i; [discriminate|].
  destruct i as [|i]; simpl.
  - intros [= ->]. destruct value as [p | key]; simpl; [reflexivity|].
    destruct (decide (key ∈ seen)) as [Hin | Hnin].
    + rewrite !bool_decide_eq_true_2 by auto. reflexivity.
    + rewrite !bool_decide_eq_false_2; [reflexivity | | exact Hnin].
      intros [? | H]; [contradiction | inversion H].
  - intros Hi. destruct (replacer v seen) as [written seen'] eqn:E. simpl.
    rewrite (IH seen' i Hi). f_equal.
    destruct value as [p | key]; [reflexivity|].
    apply (f_equal (fun b : bool => if b then _ else _)).
    apply bool_decide_ext. rewrite elem_of_cons.
    unfold replacer in E. destruct v as [p | key'].
    + injection E as <- <-. split; intros [H | H]; auto.
      destruct H as [H | H]; [discriminate | auto].
    + destruct (decide (key' ∈ seen)) as [Hin | Hnin].
      * rewrite bool_decide_eq_true_2 in E by exact Hin. injection E as <- <-.
        split; [intros [H | H]; auto|].
        intros [H | [[= ->] | H]]; auto.
      * rewrite bool_decide_eq_false_2 in E by exact Hnin. injection E as <- <-.
        rewrite elem_of_union, elem_of_singleton.
        split; [intros [[-> | H] | H]; auto|].
        intros [H | [[= ->] | H]]; auto.
Qed.

(** X20. The replacer of tag::json-circular-reference writes "[Circular]" for
    an object exactly when the same object has been visited before in the
    same serialization, and returns every other value as it is: a second
    reference to an object is replaced whether or not the first one is
    above it, so also in a document without a cycle. *)
Theorem replacer_marks_every_repeat
    (values : list Visited) (i : nat) (value : Visited) :
  values !! i = Some value ->
  exists written,
    replace_all values ∅ !! i = Some written
    /\ (written <> value
        <-> exists key, value = Reference key /\ Reference key ∈ take i values)
    /\ (written <> value -> written = Primitive (JSString "[Circular]")).
Proof.
  intros Hi. rewrite (replace_all_lookup values ∅ i value Hi).
  eexists. split; [reflexivity|].
  destruct value as [p | key].
  - split; [|intros H; contradiction].
    split; [intros H; contradiction | intros (key & [=] & _)].
  - destruct (decide (Reference key ∈ take i values)) as [Hin | Hnin].
    + rewrite bool_decide_eq_true_2 by auto.
      split; [|reflexivity]. split; [eauto | discriminate].
    + rewrite bool_decide_eq_false_2 by set_solver.
      split; [|intros H; contradiction].
      split; [intros H; contradiction | intros (key' & [= <-] & H); contradiction].
Qed.

Lemma replacer_marks_every_repeat_witness :
  exists written,
    replace_all [Reference 1; Reference 2; Primitive (JSNumber 7); Reference 2] ∅ !! 3
    = Some written
    /\ (written <> Reference 2
        <-> exists key, Reference 2 = Reference key
                        /\ Reference key ∈
                           take 3 [Reference 1; Reference 2; Primitive (JSNumber 7);
                                   Reference 2])
    /\ (written <> Reference 2 -> written = Primitive (JSString "[Circular]")).
Proof.
  apply (replacer_marks_every_repeat
           [Reference 1; Reference 2; Primitive (JSNumber 7); Reference 2] 3 (Reference 2)).
  reflexivity.
Defined.

End CircularReferences.

(** ** The type-checked status handler *)

(** X22. The status handler of the type-checked variant makes exactly two
    console calls for every status that carries an error, whatever the
    status and the code: the message, and one report of the switch.  The
    report is the unexpected-code one exactly for the codes other than
    401, 404, 500, 502, 503, 504 and 1001, so also for 0, 408 and 429. *)
Theorem typechecked_handler_always_reports
    (st : ReplicatorStatus) (err : ReplicatorError) :
  error st = Some err ->
  exists report,
    TypeChecked.onStatusChange st =
      [console_error_with "Replication error:" (JSString (message err)); report]
    /\ (report = console_error_with "Unexpected error code:" (code err)
        <-> code err ∉ JSNumber <$> [401; 404; 500; 502; 503; 504; 1001]%Z).
Proof.
  intros E. unfold TypeChecked.onStatusChange, TypeChecked.switch_code. rewrite E.
  unfold strict_eq.
  repeat match goal with
         | |- context [bool_decide (?c = JSNumber ?n)] =>
           destruct (decide (c = JSNumber n)) as [-> | ?];
           [rewrite !bool_decide_eq_true_2 by reflexivity
           |rewrite (bool_decide_eq_false_2 (c = JSNumber n)) by assumption]
         end; simpl;
    (eexists; split; [reflexivity|]);
    try (split; [discriminate | intros H; exfalso; apply H; set_solver]).
  split; [intros _ | reflexivity]. set_solver.
Qed.

Lemma typechecked_handler_always_reports_witness :
  exists report,
    TypeChecked.onStatusChange
      {| status := "busy"; error := Some {| message := "timeout"; code := JSNumber 408 |} |} =
      [console_error_with "Replication error:" (JSString "timeout"); report]
    /\ (report = console_error_with "Unexpected error code:" (JSNumber 408)
        <-> JSNumber 408 ∉ JSNumber <$> [401; 404; 500; 502; 503; 504; 1001]%Z).
Proof.
  apply (typechecked_handler_always_reports
           {| status := "busy"; error := Some {| message := "timeout"; code := JSNumber 408 |} |}
           {| message := "timeout"; code := JSNumber 408 |}).
  reflexivity.
Defined.

(** ** Collecting the completed tasks *)

Lemma execute_each_collects rows completed :
  match Results.execute_each rows completed, Results.completedTasks rows with
  | Some found, Some kept =>
    exists more, found = completed ++ more
                 /\ Forall2 (fun task row => tasks row = Some task) more kept
  | None, None => True
  | _, _ => False
  end.
Proof.
  revert completed. induction rows as [|row rows IH]; intros completed; simpl.
  - exists []. split; [now rewrite app_nil_r | constructor].
  - unfold Results.callback. destruct (tasks row) as [task|] eqn:E; [|exact I]. simpl.
    destruct (truthy (Data.completed task)); simpl.
    + specialize (IH (completed ++ [task])).
      destruct (Results.execute_each rows (completed ++ [task])) as [found|],
               (Results.completedTasks rows) as [kept|]; simpl; try exact IH.
      destruct IH as (more & -> & F). exists (task :: more).
      split; [now rewrite <- app_assoc | now constructor].
    + specialize (IH completed).
      destruct (Results.execute_each rows completed) as [found|],
               (Results.completedTasks rows) as [kept|]; simpl; exact IH.
Qed.

(** X23. The callback of tag::callback-results collects the tasks of
    exactly the rows that the filter of tag::collect-all-results keeps,
    in the same order, so both snippets log the same number of completed
    tasks; and both throw on the same results, those with a row without a
    tasks document. *)
Theorem callback_collects_what_filter_keeps (rows : list Row) :
  option_Forall2 (Forall2 (fun task row => tasks row = Some task))
    (Results.execute_each rows []) (Results.completedTasks rows)
  /\ (fun found : list Document => List.length found) <$> Results.execute_each rows [] =
     (fun kept : list Row => List.length kept) <$> Results.completedTasks rows
  /\ (Results.completedTasks rows = None <-> exists row, row ∈ rows /\ tasks row = None).
Proof.
  pose proof (execute_each_collects rows []) as C.
  split; [|split].
  - destruct (Results.execute_each rows []) as [found|],
             (Results.completedTasks rows) as [kept|]; try contradiction;
      constructor.
    destruct C as (more & -> & F). exact F.
  - destruct (Results.execute_each rows []) as [found|],
             (Results.completedTasks rows) as [kept|]; try contradiction;
      [|reflexivity].
    destruct C as (more & -> & F). simpl. f_equal. now apply Forall2_length in F.
  - clear C. induction rows as [|row rows IH]; simpl.
    + split; [discriminate | intros (row & H & _); inversion H].
    + destruct (tasks row) as [task|] eqn:E; simpl.
      * destruct (Results.completedTasks rows) as [kept|]; simpl.
        -- split; [discriminate|]. intros (r & H & N).
           apply elem_of_cons in H as [-> | H]; [congruence|].
           assert (Some kept = None) as [=] by (apply IH; eauto).
        -- split; [|reflexivity]. intros _.
           destruct (proj1 IH eq_refl) as (r & H & N). exists r.
           split; [now right | exact N].
      * split; [|reflexivity]. intros _. exists row. split; [now left | exact E].
Qed.

(** ** The two sides of a conflict *)

(** X24. With the resolver of tag::conflict-resolver on both replicas,
    one resolving with the two documents the other way round, both pick
    the same document whenever the timestamps differ; on equal timestamps
    each replica keeps its own document. *)
Theorem conflictResolver_converges_unless_tie
    (documentID : string) (mine theirs : Document) :
  (timestamp mine <> timestamp theirs ->
   conflictResolver documentID (Some mine) (Some theirs) =
   conflictResolver documentID (Some theirs) (Some mine))
  /\ (timestamp mine = timestamp theirs ->
      conflictResolver documentID (Some mine) (Some theirs) = Some mine
      /\ conflictResolver documentID (Some theirs) (Some mine) = Some theirs).
Proof.
  unfold conflictResolver, timestamp. rewrite !num_or_zero.
  split.
  - intros Hne.
    destruct (Z.gtb_spec (default 0%Z (updatedAt theirs)) (default 0%Z (updatedAt mine))),
             (Z.gtb_spec (default 0%Z (updatedAt mine)) (default 0%Z (updatedAt theirs)));
      try reflexivity; lia.
  - intros ->. now rewrite Z.gtb_ltb, Z.ltb_irrefl.
Qed.

Lemma conflictResolver_converges_unless_tie_witness :
  conflictResolver "task-1" (Some older) (Some newer) =
  conflictResolver "task-1" (Some newer) (Some older)
  /\ conflictResolver "task-1" (Some older) (Some older) = Some older.
Proof.
  split.
  - apply (proj1 (conflictResolver_converges_unless_tie "task-1" older newer)).
    discriminate.
  - apply (proj2 (conflictResolver_converges_unless_tie "task-1" older older)).
    reflexivity.
Defined.

(** ** Days until expiration *)

(** X25. The check of tag::document-expiration-date reports a document as
    expired exactly when now is later than its expiration.  Otherwise the
    number of days it reports is the least number of whole days that
    reaches the expiration from now: it is never negative, and 0 only at
    the very instant of expiration. *)
Theorem check_expiration_days (now expiration : Z) :
  (Expiration.check_expiration now expiration = Expiration.Expired
   <-> (expiration < now)%Z)
  /\ forall days,
      Expiration.check_expiration now expiration = Expiration.ExpiresIn days ->
      ((days - 1) * Helpers.day < expiration - now <= days * Helpers.day)%Z
      /\ (0 <= days)%Z
      /\ (days = 0%Z <-> expiration = now).
Proof.
  unfold Expiration.check_expiration.
  destruct (Z.gtb_spec now expiration) as [Hgt | Hle].
  - split; [split; [lia | reflexivity] | discriminate].
  - split; [split; [discriminate | lia]|].
    intros days [= <-].
    assert (D : (0 < Helpers.day)%Z) by reflexivity.
    pose proof (Z.div_mod (- (expiration - now)) Helpers.day ltac:(lia)) as E.
    pose proof (Z.mod_pos_bound (- (expiration - now)) Helpers.day D) as B.
    set (q := ((- (expiration - now)) / Helpers.day)%Z) in *.
    set (r := ((- (expiration - now)) mod Helpers.day)%Z) in *.
    repeat split; try nia.
Qed.

Lemma check_expiration_days_witness :
  ((2 - 1) * Helpers.day < (Helpers.day + 1) - 0 <= 2 * Helpers.day)%Z
  /\ (0 <= 2)%Z
  /\ (2 = 0 <-> Helpers.day + 1 = 0)%Z.
Proof.
  apply (proj2 (check_expiration_days 0 (Helpers.day + 1)) 2%Z).
  reflexivity.
Defined.

(** ** The listener of tag::live-query *)

Lemma log_tasks_Returned results :
  snd (LiveQueryListener.log_tasks results) = Returned ->
  exists ts,
    tasks <$> results = Some <$> ts
    /\ fst (LiveQueryListener.log_tasks results) =
       (fun task => console_log ("Task: " +:+ title task)) <$> ts.
Proof.
  induction results as [|row rest IH]; cbn [LiveQueryListener.log_tasks].
  - intros _. exists []. auto.
  - destruct (tasks row) as [task|] eqn:Er; [|discriminate].
    destruct (LiveQueryListener.log_tasks rest) as [lines outcome].
    cbn [fst snd] in *.
    intros H. destruct (IH H) as (ts & E & L). exists (task :: ts).
    now rewrite !fmap_cons, Er, E, L.
Qed.

Lemma log_tasks_Threw results :
  snd (LiveQueryListener.log_tasks results) = ThrewTypeError <->
  exists row, row ∈ results /\ tasks row = None.
Proof.
  induction results as [|row rest IH]; simpl.
  - split; [discriminate | intros (row & H & _); inversion H].
  - destruct (tasks row) as [task|] eqn:E.
    + destruct (LiveQueryListener.log_tasks rest) as [lines outcome]. simpl in *.
      rewrite IH. split.
      * intros (r & H & N). exists r. split; [now right | exact N].
      * intros (r & H & N). apply elem_of_cons in H as [-> | H]; [congruence | eauto].
    + split; [|reflexivity]. intros _. exists row. split; [now left | exact E].
Qed.

(** X26. The change listener of tag::live-query never leaves the task list
    half built.  When every row carries a tasks document it logs the
    number of rows and each title and the page becomes what
    updateTaskList makes of it; when a row carries none, it throws while
    logging, before updateTaskList is called, and the page is as it was. *)
Theorem live_query_listener_all_or_nothing (results : list Row) (page : Node) :
  ((forall row, row ∈ results -> tasks row <> None) ->
   exists ts,
     tasks <$> results = Some <$> ts
     /\ LiveQueryListener.listener results page =
        (console_log ("Query results updated: " +:+ pretty (List.length results)
                      +:+ " tasks")
         :: ((fun task => console_log ("Task: " +:+ title task)) <$> ts),
         updateTaskList results page)
     /\ snd (updateTaskList results page) = Returned)
  /\ ((exists row, row ∈ results /\ tasks row = None) ->
      snd (LiveQueryListener.listener results page) = (page, ThrewTypeError)).
Proof.
  unfold LiveQueryListener.listener. split.
  - intros Hall.
    destruct (LiveQueryListener.log_tasks results) as [lines outcome] eqn:E.
    destruct outcome.
    + destruct (log_tasks_Returned results) as (ts & Ets & L); [now rewrite E|].
      rewrite E in L. simpl in L. subst lines.
      exists ts. split; [exact Ets|]. split; [reflexivity|].
      unfold updateTaskList.
      destruct (getElementById "task-list" page) as [taskList|]; [|reflexivity].
      now rewrite (append_rows_all _ _ _ _ ts Ets).
    + destruct (proj1 (log_tasks_Threw results)) as (row & Hin & N);
        [now rewrite E|].
      now apply Hall in Hin.
  - intros H. apply log_tasks_Threw in H.
    destruct (LiveQueryListener.log_tasks results) as [lines outcome].
    simpl in H. subst outcome. reflexivity.
Qed.

Lemma live_query_listener_all_or_nothing_witness :
  (exists ts,
     tasks <$> sample_rows = Some <$> ts
     /\ LiveQueryListener.listener sample_rows sample_page =
        (console_log ("Query results updated: " +:+ pretty (List.length sample_rows)
                      +:+ " tasks")
         :: ((fun task => console_log ("Task: " +:+ title task)) <$> ts),
         updateTaskList sample_rows sample_page)
     /\ snd (updateTaskList sample_rows sample_page) = Returned)
  /\ snd (LiveQueryListener.listener
            (sample_rows ++ [{| tasks := None; column_title := None; attachment := None |}])
            sample_page) = (sample_page, ThrewTypeError).
Proof.
  split.
  - apply (proj1 (live_query_listener_all_or_nothing sample_rows sample_page)).
    intros row Hin. unfold sample_rows in Hin.
    apply elem_of_cons in Hin as [-> | Hin]; [discriminate|].
    apply elem_of_cons in Hin as [-> | Hin]; [discriminate|].
    inversion Hin.
  - apply (proj2 (live_query_listener_all_or_nothing
                    (sample_rows ++ [{| tasks := None; column_title := None;
                                        attachment := None |}])
                    sample_page)).
    exists {| tasks := None; column_title := None; attachment := None |}.
    split; [|reflexivity].
    apply elem_of_app. right. constructor.
Defined.
